(** * The machine-service API handler (src/handler/api.ts)

    A shallow embedding of [ApiHandler]: the three private handlers
    ([handleRequestMachine], [handleGetMachine], [handleStartMachine]) and the
    router [handle], written as state-passing functions over the
    collaborators the class reaches through its singletons: the machine
    table, the data cache, the smart-machine client and the identity
    provider. *)

From Stdlib Require Import String Ascii List Bool.
From stdpp Require Import base option gmap strings list.
Import ListNotations.
Open Scope string_scope.

(** ** database/schema *)

Inductive MachineStatus : Type :=
| AVAILABLE
| AWAITING_DROPOFF
| RUNNING
| ERROR.

#[global] Instance MachineStatus_eq_dec : EqDecision MachineStatus.
Proof. solve_decision. Defined.

(** One machine record. [jobId] is [None] while no job holds the machine. *)
Record MachineStateDocument : Type := mkDoc {
  machineId : string;
  locationId : string;
  status : MachineStatus;
  jobId : option string
}.

#[global] Instance MachineStateDocument_eq_dec : EqDecision MachineStateDocument.
Proof. solve_decision. Defined.

Definition withStatus (s : MachineStatus) (d : MachineStateDocument) : MachineStateDocument :=
  {| machineId := machineId d; locationId := locationId d;
     status := s; jobId := jobId d |}.

Definition withJobId (j : string) (d : MachineStateDocument) : MachineStateDocument :=
  {| machineId := machineId d; locationId := locationId d;
     status := status d; jobId := Some j |}.

(** ** handler/model *)

Inductive HttpResponseCode : Type :=
| OK
| BAD_REQUEST
| UNAUTHORIZED
| NOT_FOUND
| HARDWARE_ERROR
| INTERNAL_SERVER_ERROR.

#[global] Instance HttpResponseCode_eq_dec : EqDecision HttpResponseCode.
Proof. solve_decision. Defined.

Module Model.

(** The request as [handle] receives it. [locationId] and [jobId] are the
    body fields that [request as RequestMachineRequestModel] reads. *)
Record RequestModel : Type := mkRequest {
  method : string;
  path : string;
  token : string;
  locationId : string;
  jobId : string
}.

(** [{ ...request, machineId }] *)
Record MachineIdRequestModel : Type := withMachineId {
  request : RequestModel;
  machineId : string
}.

(** The [machine] property of a response object: left out of the object
    literal, [null], or a reference to a machine object. *)
Inductive MachineField (H : Type) : Type :=
| Absent
| Null
| Machine (h : H).
#[global] Arguments Absent {H}.
#[global] Arguments Null {H}.
#[global] Arguments Machine {H} h.

Record MachineResponseModel (H : Type) : Type := mkResponse {
  statusCode : HttpResponseCode;
  machine : MachineField H
}.
#[global] Arguments mkResponse {H} _ _.
#[global] Arguments statusCode {H} _.
#[global] Arguments machine {H} _.

(** How a call of [handle] ends: it returns a response, or [checkToken]
    throws an [Error] whose message carries a status code and a text. *)
Inductive Completion (A : Type) : Type :=
| Returned (a : A)
| Thrown (code : HttpResponseCode) (message : string).
#[global] Arguments Returned {A} a.
#[global] Arguments Thrown {A} code message.

End Model.

Import Model (MachineField, Absent, Null, Machine, MachineResponseModel,
              mkResponse, statusCode, machine, Completion, Returned, Thrown,
              RequestModel, mkRequest, MachineIdRequestModel, withMachineId).

(** ** database/table: the interface the handler uses

    [T] is the state of the table and [H] the type of the machine objects
    its reads hand out. A machine object is a JavaScript reference, so what
    its fields hold may depend on the state of the table: [docOf t h] are the
    fields of object [h] while the table is in state [t]. *)
Class MachineStateTable (T H : Type) : Type := {
  listMachinesAtLocation : T -> string -> list H;
  getMachine : T -> string -> option H;
  updateMachineStatus : T -> string -> MachineStatus -> T;
  updateMachineJobId : T -> string -> string -> T;
  docOf : T -> H -> MachineStateDocument
}.

(** What a table read after a status update must show: the record found under
    the id that was just updated carries the status that was written. *)
Class MachineStateTableLaws (T H : Type) `{MachineStateTable T H} : Prop := {
  getMachine_updateMachineStatus :
    forall (t : T) (id : string) (s : MachineStatus) (h : H),
      getMachine (updateMachineStatus t id s) id = Some h ->
      status (docOf (updateMachineStatus t id s) h) = s
}.

(** ** The state the handler works on *)

(** Modelled from the spec: the data cache (database/cache is not part of the
    sources at hand) is a mapping from machine id to the last record put
    under it, with [get(key)] answering [undefined] on a miss and
    [put(key, value)] overwriting.

    [startCycleCalls] lists the machine ids [SmartMachineClient.startCycle]
    was called with, oldest first. *)
Record World (T H : Type) : Type := mkWorld {
  table : T;
  cache : gmap string H;
  startCycleCalls : list string
}.
Arguments mkWorld {T H} _ _ _.
Arguments table {T H} _.
Arguments cache {T H} _.
Arguments startCycleCalls {T H} _.

Definition setTable {T H : Type} (t : T) (w : World T H) : World T H :=
  mkWorld t (cache w) (startCycleCalls w).

Definition cachePut {T H : Type} (key : string) (value : H) (w : World T H) : World T H :=
  mkWorld (table w) (<[key := value]> (cache w)) (startCycleCalls w).

Definition cacheGet {T H : Type} (key : string) (w : World T H) : option H :=
  cache w !! key.

Definition recordStartCycle {T H : Type} (id : string) (w : World T H) : World T H :=
  mkWorld (table w) (cache w) (startCycleCalls w ++ [id])%list.

(** ** Path matching in [handle] *)

(** The character class [[a-zA-Z0-9-]]. *)
Definition isIdChar (c : ascii) : bool :=
  let n := nat_of_ascii c in
  (((97 <=? n) && (n <=? 122)) || ((65 <=? n) && (n <=? 90))
   || ((48 <=? n) && (n <=? 57)) || (n =? 45))%nat.

Fixpoint stripPrefix (p s : string) : option string :=
  match p with
  | EmptyString => Some s
  | String a p' =>
      match s with
      | String b s' => if Ascii.eqb a b then stripPrefix p' s' else None
      | EmptyString => None
      end
  end.

(** The longest run of id characters at the front of [s], and what follows. *)
Fixpoint spanId (s : string) : string * string :=
  match s with
  | String c s' =>
      if isIdChar c
      then let (id, rest) := spanId s' in (String c id, rest)
      else (EmptyString, s)
  | EmptyString => (EmptyString, EmptyString)
  end.

(** [path.match(/^\/machine\/([a-zA-Z0-9-]+)<suffix>$/)], answering the
    captured group. A suffix starts with a slash or is empty, and a slash is
    no id character, so the group can only be the whole run of id characters
    after the prefix. *)
Definition matchMachinePath (suffix path : string) : option string :=
  match stripPrefix "/machine/" path with
  | Some rest =>
      let (id, tl) := spanId rest in
      if negb (String.eqb id "") && String.eqb tl suffix then Some id else None
  | None => None
  end.

(** ** The handler *)

Section ApiHandler.

Context {T H : Type} `{Tbl : MachineStateTable T H}.

(** [IdentityProviderClient.validateToken]. *)
Variable validateToken : string -> bool.

(** [SmartMachineClient.startCycle]: given the calls made so far and the
    machine id, [true] when the call returns and [false] when it throws. *)
Variable startCycle : list string -> string -> bool.

Definition handleRequestMachine (request : RequestModel)
    (w : World T H) : MachineResponseModel H * World T H :=
  let machines := listMachinesAtLocation (table w) (Model.locationId request) in
  let availableMachine :=
    List.find (fun machine =>
                 bool_decide (status (docOf (table w) machine) = AVAILABLE))
              machines in
  match availableMachine with
  | None => (mkResponse NOT_FOUND Absent, w)
  | Some availableMachine =>
      let w1 := setTable (updateMachineStatus (table w)
                            (machineId (docOf (table w) availableMachine))
                            AWAITING_DROPOFF) w in
      let w2 := setTable (updateMachineJobId (table w1)
                            (machineId (docOf (table w1) availableMachine))
                            (Model.jobId request)) w1 in
      let w3 := cachePut (machineId (docOf (table w2) availableMachine))
                         availableMachine w2 in
      (mkResponse OK (Machine availableMachine), w3)
  end.

Definition handleGetMachine (request : MachineIdRequestModel)
    (w : World T H) : MachineResponseModel H * World T H :=
  match cacheGet (Model.machineId request) w with
  | Some cachedMachine => (mkResponse OK (Machine cachedMachine), w)
  | None =>
      match getMachine (table w) (Model.machineId request) with
      | None => (mkResponse NOT_FOUND Absent, w)
      | Some machine =>
          let w1 := cachePut (Model.machineId request) machine w in
          (mkResponse OK (Machine machine), w1)
      end
  end.

(** The table and the cache are taken not to throw, so the [catch] block is
    entered exactly when [startCycle] throws. *)
Definition handleStartMachine (request : MachineIdRequestModel)
    (w : World T H) : MachineResponseModel H * World T H :=
  match getMachine (table w) (Model.machineId request) with
  | None => (mkResponse NOT_FOUND Absent, w)
  | Some machine =>
      if bool_decide (status (docOf (table w) machine) <> AWAITING_DROPOFF)
      then (mkResponse BAD_REQUEST (Machine machine), w)
      else
        let returned := startCycle (startCycleCalls w) (Model.machineId request) in
        let w1 := recordStartCycle (Model.machineId request) w in
        if returned
        then
          let w2 := setTable (updateMachineStatus (table w1)
                                (Model.machineId request) RUNNING) w1 in
          match getMachine (table w2) (Model.machineId request) with
          | None => (mkResponse INTERNAL_SERVER_ERROR Absent, w2)
          | Some updatedMachine =>
              let w3 := cachePut (Model.machineId request) updatedMachine w2 in
              (mkResponse OK (Machine updatedMachine), w3)
          end
        else
          let w2 := setTable (updateMachineStatus (table w1)
                                (Model.machineId request) ERROR) w1 in
          match getMachine (table w2) (Model.machineId request) with
          | None => (mkResponse INTERNAL_SERVER_ERROR Absent, w2)
          | Some errorMachine =>
              let w3 := cachePut (Model.machineId request) errorMachine w2 in
              (mkResponse HARDWARE_ERROR (Machine errorMachine), w3)
          end
  end.

Definition handle (request : RequestModel)
    (w : World T H) : Completion (MachineResponseModel H) * World T H :=
  if negb (validateToken (Model.token request))
  then (Thrown UNAUTHORIZED "Invalid token", w)
  else if String.eqb (Model.method request) "POST"
          && String.eqb (Model.path request) "/machine/request"
  then let (r, w') := handleRequestMachine request w in (Returned r, w')
  else
    let getMachineMatch := matchMachinePath "" (Model.path request) in
    match (if String.eqb (Model.method request) "GET"
           then getMachineMatch else None) with
    | Some machineId =>
        let (r, w') := handleGetMachine (withMachineId request machineId) w in
        (Returned r, w')
    | None =>
        let startMachineMatch := matchMachinePath "/start" (Model.path request) in
        match (if String.eqb (Model.method request) "POST"
               then startMachineMatch else None) with
        | Some machineId =>
            let (r, w') := handleStartMachine (withMachineId request machineId) w in
            (Returned r, w')
        | None => (Returned (mkResponse INTERNAL_SERVER_ERROR Null), w)
        end
    end.

End ApiHandler.

(** ** Two tables *)

(** The machine table as the durable key-value store of the specification:
    rows in listing order, looked up by machine id and by location. *)
Module DurableTable.

Definition listAt (t : list MachineStateDocument) (loc : string)
    : list MachineStateDocument :=
  List.filter (fun d => String.eqb (locationId d) loc) t.

Definition get (t : list MachineStateDocument) (id : string)
    : option MachineStateDocument :=
  List.find (fun d => String.eqb (machineId d) id) t.

Definition updateStatus (t : list MachineStateDocument) (id : string)
    (s : MachineStatus) : list MachineStateDocument :=
  List.map (fun d => if String.eqb (machineId d) id then withStatus s d else d) t.

Definition updateJobId (t : list MachineStateDocument) (id : string)
    (j : string) : list MachineStateDocument :=
  List.map (fun d => if String.eqb (machineId d) id then withJobId j d else d) t.

(** Modelled from the spec: the machine table (database/table is not among
    the sources) as the durable key-value store of the specification. The
    rows are kept in listing order; a read answers the record as it is stored
    at the moment of the read, detached from the row, so an update made later
    does not show in an object read earlier; an update sets the field of
    every row stored under the machine id. *)
#[global] Instance durable : MachineStateTable (list MachineStateDocument) MachineStateDocument := {
  listMachinesAtLocation := listAt;
  getMachine := get;
  updateMachineStatus := updateStatus;
  updateMachineJobId := updateJobId;
  docOf := fun _ d => d
}.

End DurableTable.

(** The same store held in memory, with reads that hand out the stored row
    objects themselves. *)
Module LiveTable.

Definition blank : MachineStateDocument := mkDoc "" "" AVAILABLE None.

Definition row (t : list MachineStateDocument) (i : nat) : MachineStateDocument :=
  List.nth i t blank.

Definition listAt (t : list MachineStateDocument) (loc : string) : list nat :=
  List.filter (fun i => String.eqb (locationId (row t i)) loc)
              (List.seq 0 (List.length t)).

Definition get (t : list MachineStateDocument) (id : string) : option nat :=
  List.find (fun i => String.eqb (machineId (row t i)) id)
            (List.seq 0 (List.length t)).

(** Modelled from the spec: the machine table (database/table is not among
    the sources) held in memory, with rows in listing order and reads that
    hand out the stored row objects themselves. A machine object is the row
    at a position, and its fields are whatever that row holds now, so an
    update made later shows in an object read earlier. *)
Definition live : MachineStateTable (list MachineStateDocument) nat := {|
  listMachinesAtLocation := listAt;
  getMachine := get;
  updateMachineStatus := DurableTable.updateStatus;
  updateMachineJobId := DurableTable.updateJobId;
  docOf := row
|}.

End LiveTable.

(** The invariant of the data model on a durable table: a machine that is
    available holds no job. *)
Definition availableHasNoJob (t : list MachineStateDocument) : Prop :=
  forall d, In d t -> status d = AVAILABLE -> jobId d = None.

(** A table that loses the row it is asked to update. It serves to exercise
    the second [getMachine] of [handleStartMachine]. *)
Module LossyTable.

Definition dropRow (t : list MachineStateDocument) (id : string)
    : list MachineStateDocument :=
  List.filter (fun d => negb (String.eqb (machineId d) id)) t.

(** Modelled from the spec: the machine table (database/table is not among
    the sources) in the inconsistent case the specification names for
    StartCycle, where the record read back after the update is not found:
    a status update drops the rows stored under the machine id. *)
Definition lossy : MachineStateTable (list MachineStateDocument) MachineStateDocument := {|
  listMachinesAtLocation := DurableTable.listAt;
  getMachine := DurableTable.get;
  updateMachineStatus := fun t id _ => dropRow t id;
  updateMachineJobId := DurableTable.updateJobId;
  docOf := fun _ d => d
|}.

End LossyTable.

(** ** The routes of [handle], as the specification names them *)

(** A machine id as a path segment: one or more of [[a-zA-Z0-9-]]. *)
Fixpoint allIdChars (s : string) : bool :=
  match s with
  | EmptyString => true
  | String c s' => isIdChar c && allIdChars s'
  end.

Definition validMachineId (id : string) : Prop :=
  id <> "" /\ allIdChars id = true.

(** A string that is empty or starts with a character outside the id class:
    [spanId] takes nothing from it. *)
Definition startsOutsideId (s : string) : Prop :=
  match s with
  | EmptyString => True
  | String c _ => isIdChar c = false
  end.

(** POST /machine/request *)
Definition isRequestRoute (method path : string) : Prop :=
  method = "POST" /\ path = "/machine/request".

(** GET /machine/{id} *)
Definition isGetRoute (method path : string) : Prop :=
  method = "GET" /\ exists id, validMachineId id /\ path = "/machine/" ++ id.

(** POST /machine/{id}/start *)
Definition isStartRoute (method path : string) : Prop :=
  method = "POST" /\ exists id, validMachineId id /\ path = "/machine/" ++ id ++ "/start".

(** ** Scenarios *)

Module Scenario.

Definition m1 : MachineStateDocument := mkDoc "m1" "L1" AVAILABLE None.
Definition m2 : MachineStateDocument := mkDoc "m2" "L1" RUNNING None.
Definition m1Reserved : MachineStateDocument := mkDoc "m1" "L1" AWAITING_DROPOFF (Some "j1").
Definition m1Running : MachineStateDocument := mkDoc "m1" "L1" RUNNING (Some "j1").
Definition m1Error : MachineStateDocument := mkDoc "m1" "L1" ERROR (Some "j1").

(** Location L1 with [m1] available and [m2] running; nothing cached. *)
Definition fresh : World (list MachineStateDocument) MachineStateDocument :=
  mkWorld [m1; m2] ∅ [].

(** The same after [m1] was reserved for job j1. *)
Definition reserved : World (list MachineStateDocument) MachineStateDocument :=
  mkWorld [m1Reserved; m2] ∅ [].

Definition reserveAtL1 : RequestModel :=
  mkRequest "POST" "/machine/request" "token" "L1" "j1".

Definition getRequest (id : string) : MachineIdRequestModel :=
  withMachineId (mkRequest "GET" ("/machine/" ++ id) "token" "" "") id.

Definition startRequest (id : string) : MachineIdRequestModel :=
  withMachineId (mkRequest "POST" ("/machine/" ++ id ++ "/start") "token" "" "") id.

Definition m3 : MachineStateDocument := mkDoc "m3" "L1" AVAILABLE None.

(** Location L1 with two available machines, [m1] and [m3]. *)
Definition twoAvailable : World (list MachineStateDocument) MachineStateDocument :=
  mkWorld [m1; m2; m3] ∅ [].

(** [m9] is cached but not stored. *)
Definition orphanCached : World (list MachineStateDocument) MachineStateDocument :=
  mkWorld [m1; m2] (<["m9" := mkDoc "m9" "L1" AWAITING_DROPOFF (Some "j9")]> ∅) [].

(** Location L1 with [m1] available and [m2] running, on the table that
    hands out its rows: machine objects are row positions. *)
Definition freshLive : World (list MachineStateDocument) nat :=
  mkWorld [m1; m2] ∅ [].

(** The same after [m1] was reserved for job j1. *)
Definition reservedLive : World (list MachineStateDocument) nat :=
  mkWorld [m1Reserved; m2] ∅ [].

Definition anyToken (token : string) : bool := true.
Definition noToken (token : string) : bool := false.
Definition deviceWorks (calls : list string) (id : string) : bool := true.
Definition deviceBroken (calls : list string) (id : string) : bool := false.

End Scenario.

(** ** Tables that hand out their stored rows

    The machine objects of a listing are the stored rows themselves, as
    JavaScript references to them are: an update of the table leaves the same
    objects listed and shows in their fields. *)
Class HandsOutStoredRows (T H : Type) `{MachineStateTable T H} : Prop := {
  listed_updateMachineStatus :
    forall (t : T) (loc id : string) (s : MachineStatus) (h : H),
      In h (listMachinesAtLocation t loc) ->
      In h (listMachinesAtLocation (updateMachineStatus t id s) loc)
      /\ docOf (updateMachineStatus t id s) h
         = (if String.eqb (machineId (docOf t h)) id
            then withStatus s (docOf t h) else docOf t h);
  listed_updateMachineJobId :
    forall (t : T) (loc id j : string) (h : H),
      In h (listMachinesAtLocation t loc) ->
      docOf (updateMachineJobId t id j) h
      = (if String.eqb (machineId (docOf t h)) id
         then withJobId j (docOf t h) else docOf t h)
}.

(** ** Notions for what the handlers keep *)

(** Which status codes come with which [machine] property: a machine object
    with OK, BAD_REQUEST and HARDWARE_ERROR, none with NOT_FOUND, none or
    [null] with INTERNAL_SERVER_ERROR. *)
Definition responseShape {H : Type} (r : MachineResponseModel H) : Prop :=
  match machine r with
  | Machine _ =>
      statusCode r = OK \/ statusCode r = BAD_REQUEST \/ statusCode r = HARDWARE_ERROR
  | Absent => statusCode r = NOT_FOUND \/ statusCode r = INTERNAL_SERVER_ERROR
  | Null => statusCode r = INTERNAL_SERVER_ERROR
  end.

(** How many of the records are available. *)
Definition availableCount (l : list MachineStateDocument) : nat :=
  List.length (List.filter (fun d => bool_decide (status d = AVAILABLE)) l).

(** One row after a reservation of machine [id] for job [j], written as a
    single compound update. *)
Definition reserveRow (id j : string) (d : MachineStateDocument) : MachineStateDocument :=
  if String.eqb (machineId d) id
  then mkDoc (machineId d) (locationId d) AWAITING_DROPOFF (Some j)
  else d.

(** A row before and after a request: it keeps its machine id and its
    location, and when it is available afterwards it is as it was. *)
Definition neverFreed (d d' : MachineStateDocument) : Prop :=
  machineId d' = machineId d
  /\ locationId d' = locationId d
  /\ (status d' = AVAILABLE -> d' = d).

(** * Properties *)

(** ** Lists *)

Lemma find_none_of_all_false {A : Type} (f : A -> bool) (l : list A) :
  (forall x, In x l -> f x = false) -> List.find f l = None.
Proof.
  induction l as [|a l IH]; intros Hall; simpl; [reflexivity|].
  rewrite (Hall a (or_introl eq_refl)).
  apply IH. intros x Hx. apply Hall. right. exact Hx.
Qed.

(** [find] answers the first element that passes the test. *)
Lemma find_some_first {A : Type} (f : A -> bool) (l : list A) (x : A) :
  List.find f l = Some x ->
  exists pre post, l = (pre ++ x :: post)%list /\ f x = true
                   /\ (forall y, In y pre -> f y = false).
Proof.
  induction l as [|a l IH]; simpl; [discriminate|].
  destruct (f a) eqn:Hfa.
  - intros [= ->]. exists [], l. repeat split; [exact Hfa | intros y []].
  - intros Hfind. destruct (IH Hfind) as (pre & post & -> & Hx & Hpre).
    exists (a :: pre), post. repeat split; [exact Hx|].
    intros y [<-|Hy]; [exact Hfa | apply Hpre, Hy].
Qed.

Lemma find_is_some_of_exists {A : Type} (f : A -> bool) (l : list A) (x : A) :
  In x l -> f x = true -> exists y, List.find f l = Some y.
Proof.
  induction l as [|a l IH]; simpl; [intros []|].
  intros Hin Hfx. destruct (f a) eqn:Hfa; [eauto|].
  destruct Hin as [->|Hin]; [congruence | apply IH; assumption].
Qed.

(** ** The handlers over any table *)

Section AnyTable.

Context {T H : Type} `{Tbl : MachineStateTable T H}.
Variable validateToken : string -> bool.
Variable startCycle : list string -> string -> bool.

(** C7. A Reserve call at a location whose listing holds no record with
    status AVAILABLE answers NOT_FOUND and leaves the whole state as it
    was: no store update, no cache write. *)
Theorem reserve_without_candidate_is_not_found
    (request : RequestModel) (w : World T H) :
  (forall h, In h (listMachinesAtLocation (table w) (Model.locationId request)) ->
             status (docOf (table w) h) <> AVAILABLE) ->
  handleRequestMachine request w = (mkResponse NOT_FOUND Absent, w)
  /\ table (snd (handleRequestMachine request w)) = table w
  /\ cache (snd (handleRequestMachine request w)) = cache w.
Proof.
  intros Hnone.
  assert (Hres : handleRequestMachine request w = (mkResponse NOT_FOUND Absent, w)).
  { unfold handleRequestMachine.
    rewrite find_none_of_all_false; [reflexivity|].
    intros h Hin. apply bool_decide_eq_false. apply Hnone, Hin. }
  rewrite Hres. auto.
Qed.

(** C8. When the listing of the location holds a record with status
    AVAILABLE, Reserve picks the first such record of the listing: every
    record before it is not available, it is the record handed back, and
    the store is updated and the cache written under its machine id. *)
Theorem reserve_picks_first_available
    (request : RequestModel) (w : World T H) (a : H) :
  In a (listMachinesAtLocation (table w) (Model.locationId request)) ->
  status (docOf (table w) a) = AVAILABLE ->
  exists pre chosen post,
    listMachinesAtLocation (table w) (Model.locationId request)
      = (pre ++ chosen :: post)%list
    /\ (forall h, In h pre -> status (docOf (table w) h) <> AVAILABLE)
    /\ status (docOf (table w) chosen) = AVAILABLE
    /\ fst (handleRequestMachine request w) = mkResponse OK (Machine chosen)
    /\ (let id := machineId (docOf (table w) chosen) in
        let t1 := updateMachineStatus (table w) id AWAITING_DROPOFF in
        let t2 := updateMachineJobId t1 (machineId (docOf t1 chosen))
                                     (Model.jobId request) in
        table (snd (handleRequestMachine request w)) = t2
        /\ cache (snd (handleRequestMachine request w))
           = <[machineId (docOf t2 chosen) := chosen]> (cache w)).
Proof.
  intros Hin Ha.
  destruct (find_is_some_of_exists
              (fun machine => bool_decide (status (docOf (table w) machine) = AVAILABLE))
              _ a Hin) as [chosen Hfind].
  { apply bool_decide_eq_true. exact Ha. }
  destruct (find_some_first _ _ _ Hfind) as (pre & post & Hsplit & Hc & Hpre).
  exists pre, chosen, post.
  split; [exact Hsplit|].
  split. { intros h Hh. specialize (Hpre h Hh). apply bool_decide_eq_false in Hpre. exact Hpre. }
  split. { apply bool_decide_eq_true in Hc. exact Hc. }
  unfold handleRequestMachine. rewrite Hfind. simpl. auto.
Qed.

(** C4. StartCycle on a machine that exists and whose status is not
    AWAITING_DROPOFF answers BAD_REQUEST with the record as read; the device
    controller is not called, the store is not written and the cache is not
    written. *)
Theorem start_in_wrong_state_is_bad_request
    (request : MachineIdRequestModel) (w : World T H) (current : H) :
  getMachine (table w) (Model.machineId request) = Some current ->
  status (docOf (table w) current) <> AWAITING_DROPOFF ->
  handleStartMachine startCycle request w
    = (mkResponse BAD_REQUEST (Machine current), w)
  /\ startCycleCalls (snd (handleStartMachine startCycle request w))
     = startCycleCalls w
  /\ table (snd (handleStartMachine startCycle request w)) = table w
  /\ cache (snd (handleStartMachine startCycle request w)) = cache w.
Proof.
  intros Hget Hst.
  assert (Hres : handleStartMachine startCycle request w
                 = (mkResponse BAD_REQUEST (Machine current), w)).
  { unfold handleStartMachine. rewrite Hget.
    rewrite bool_decide_true by exact Hst. reflexivity. }
  rewrite Hres. auto.
Qed.

(** C9. GetState for an id that is in neither the cache nor the store
    answers NOT_FOUND and leaves the cache as it was, with no entry under
    the id; on a cache miss where the store has the record, the record is
    put into the cache under the id and handed back. *)
Theorem get_state_on_cache_miss
    (request : MachineIdRequestModel) (w : World T H) :
  cache w !! Model.machineId request = None ->
  (getMachine (table w) (Model.machineId request) = None ->
     handleGetMachine request w = (mkResponse NOT_FOUND Absent, w)
     /\ cache (snd (handleGetMachine request w)) = cache w
     /\ cache (snd (handleGetMachine request w)) !! Model.machineId request = None)
  /\ (forall stored,
        getMachine (table w) (Model.machineId request) = Some stored ->
        handleGetMachine request w
          = (mkResponse OK (Machine stored),
             mkWorld (table w)
                     (<[Model.machineId request := stored]> (cache w))
                     (startCycleCalls w))
        /\ cache (snd (handleGetMachine request w)) !! Model.machineId request
           = Some stored).
Proof.
  intros Hmiss. unfold handleGetMachine, cacheGet. rewrite Hmiss. split.
  - intros ->. simpl. auto.
  - intros stored ->. simpl. split; [reflexivity|]. apply lookup_insert_eq.
Qed.

End AnyTable.

(** ** StartCycle over a table that shows its own writes *)

Section LawfulTable.

Context {T H : Type} `{Laws : MachineStateTableLaws T H}.
Variable startCycle : list string -> string -> bool.

(** Runs [handleStartMachine] past the status check and the device call,
    given what the first read, the status, the device and the second read
    answer. *)
Ltac run_start Hget Hst Hdev Hreread :=
  unfold handleStartMachine; rewrite Hget;
  rewrite bool_decide_false by (intros Hne; apply Hne, Hst);
  rewrite Hdev; simpl; rewrite Hreread; reflexivity.

(** C5. StartCycle on a machine that awaits drop-off, with a device command
    that fails: the device is called once, ERROR is written to the store and
    the record is read again. When it is found, it is put into the cache and
    handed back under HARDWARE_ERROR, and its status is ERROR; when it is not
    found, the answer is INTERNAL_SERVER_ERROR and the cache is not
    written. *)
Theorem start_with_failing_device
    (request : MachineIdRequestModel) (w : World T H) (current : H) :
  let id := Model.machineId request in
  getMachine (table w) id = Some current ->
  status (docOf (table w) current) = AWAITING_DROPOFF ->
  startCycle (startCycleCalls w) id = false ->
  let t' := updateMachineStatus (table w) id ERROR in
  let calls' := (startCycleCalls w ++ [id])%list in
  match getMachine t' id with
  | Some errorMachine =>
      handleStartMachine startCycle request w
        = (mkResponse HARDWARE_ERROR (Machine errorMachine),
           mkWorld t' (<[id := errorMachine]> (cache w)) calls')
      /\ status (docOf t' errorMachine) = ERROR
  | None =>
      handleStartMachine startCycle request w
        = (mkResponse INTERNAL_SERVER_ERROR Absent, mkWorld t' (cache w) calls')
  end.
Proof.
  intros id Hget Hst Hdev t' calls'. subst id t' calls'.
  destruct (getMachine (updateMachineStatus _ _ ERROR) _) as [errorMachine|] eqn:Hreread.
  - split; [run_start Hget Hst Hdev Hreread|].
    apply getMachine_updateMachineStatus. exact Hreread.
  - run_start Hget Hst Hdev Hreread.
Qed.

(** C6. StartCycle on a machine that awaits drop-off, with a device command
    that succeeds: the device is called once, RUNNING is written to the
    store and the record is read again. When it is found, it is put into the
    cache and handed back under OK, and its status is RUNNING; when it is not
    found, the answer is INTERNAL_SERVER_ERROR and the cache is not
    written. *)
Theorem start_with_working_device
    (request : MachineIdRequestModel) (w : World T H) (current : H) :
  let id := Model.machineId request in
  getMachine (table w) id = Some current ->
  status (docOf (table w) current) = AWAITING_DROPOFF ->
  startCycle (startCycleCalls w) id = true ->
  let t' := updateMachineStatus (table w) id RUNNING in
  let calls' := (startCycleCalls w ++ [id])%list in
  match getMachine t' id with
  | Some updatedMachine =>
      handleStartMachine startCycle request w
        = (mkResponse OK (Machine updatedMachine),
           mkWorld t' (<[id := updatedMachine]> (cache w)) calls')
      /\ status (docOf t' updatedMachine) = RUNNING
  | None =>
      handleStartMachine startCycle request w
        = (mkResponse INTERNAL_SERVER_ERROR Absent, mkWorld t' (cache w) calls')
  end.
Proof.
  intros id Hget Hst Hdev t' calls'. subst id t' calls'.
  destruct (getMachine (updateMachineStatus _ _ RUNNING) _) as [updatedMachine|] eqn:Hreread.
  - split; [run_start Hget Hst Hdev Hreread|].
    apply getMachine_updateMachineStatus. exact Hreread.
  - run_start Hget Hst Hdev Hreread.
Qed.

(** GetState right after a StartCycle that wrote a status and found the
    record again answers the record that StartCycle cached, and that record
    shows the status that was written. *)
Lemma get_state_after_start
    (request : MachineIdRequestModel) (w : World T H) (current refreshed : H) :
  let id := Model.machineId request in
  let written := if startCycle (startCycleCalls w) id then RUNNING else ERROR in
  getMachine (table w) id = Some current ->
  status (docOf (table w) current) = AWAITING_DROPOFF ->
  getMachine (updateMachineStatus (table w) id written) id = Some refreshed ->
  let w' := snd (handleStartMachine startCycle request w) in
  table w' = updateMachineStatus (table w) id written
  /\ fst (handleGetMachine request w') = mkResponse OK (Machine refreshed)
  /\ status (docOf (table w') refreshed) = written.
Proof.
  intros id written Hget Hst Hreread w'.
  assert (Hw' : w' = mkWorld (updateMachineStatus (table w) id written)
                             (<[id := refreshed]> (cache w))
                             (startCycleCalls w ++ [id])%list).
  { subst w' written. unfold handleStartMachine. fold id. rewrite Hget.
    rewrite bool_decide_false by (intros Hne; apply Hne, Hst).
    destruct (startCycle (startCycleCalls w) id); simpl;
      rewrite Hreread; reflexivity. }
  rewrite Hw'. simpl. split; [reflexivity|]. split.
  - unfold handleGetMachine, cacheGet. fold id. simpl.
    rewrite lookup_insert_eq. reflexivity.
  - apply getMachine_updateMachineStatus. exact Hreread.
Qed.

End LawfulTable.

(** ** Path matching *)

Lemma append_empty_r (s : string) : s ++ "" = s.
Proof.
  induction s as [|c s IH]; [reflexivity|].
  change (String c (s ++ "") = String c s). rewrite IH. reflexivity.
Qed.

Lemma stripPrefix_some (p s rest : string) :
  stripPrefix p s = Some rest <-> s = p ++ rest.
Proof.
  revert s. induction p as [|a p IH]; intros s; simpl.
  - split; [intros [= ->]; reflexivity | intros ->; reflexivity].
  - destruct s as [|b s]; [split; discriminate|].
    destruct (Ascii.eqb_spec a b) as [->|Hne].
    + rewrite IH. split; [intros ->; reflexivity | intros [= ->]; reflexivity].
    + split; [discriminate | intros [= Hb _]; congruence].
Qed.

(** What [spanId] answers: the two parts make up the string and the first
    part holds id characters only. *)
Lemma spanId_parts (s id tl : string) :
  spanId s = (id, tl) -> s = id ++ tl /\ allIdChars id = true.
Proof.
  revert id tl. induction s as [|c s IH]; intros id tl; simpl.
  - intros [= <- <-]. split; reflexivity.
  - destruct (isIdChar c) eqn:Hc.
    + destruct (spanId s) as [id' tl'] eqn:Hspan.
      intros [= <- <-]. destruct (IH id' tl' eq_refl) as [-> Hall].
      simpl. rewrite Hc, Hall. split; reflexivity.
    + intros [= <- <-]. split; reflexivity.
Qed.

Lemma spanId_app (id tl : string) :
  allIdChars id = true -> startsOutsideId tl -> spanId (id ++ tl) = (id, tl).
Proof.
  intros Hall Htl. induction id as [|c id IH]; simpl in *.
  - destruct tl as [|c tl]; [reflexivity|]. simpl in *. rewrite Htl. reflexivity.
  - apply andb_prop in Hall as [Hc Hall]. rewrite Hc, (IH Hall). reflexivity.
Qed.

(** The matcher of [handle] accepts exactly the paths [/machine/<id><suffix>]
    with a valid machine id, and answers that id. *)
Lemma matchMachinePath_some (suffix path id : string) :
  startsOutsideId suffix ->
  matchMachinePath suffix path = Some id
  <-> validMachineId id /\ path = "/machine/" ++ id ++ suffix.
Proof.
  intros Hsuffix. unfold matchMachinePath, validMachineId. split.
  - destruct (stripPrefix "/machine/" path) as [rest|] eqn:Hstrip; [|discriminate].
    apply stripPrefix_some in Hstrip.
    destruct (spanId rest) as [id' tl] eqn:Hspan.
    apply spanId_parts in Hspan as [-> Hall].
    destruct (String.eqb_spec id' "") as [->|Hne]; simpl; [discriminate|].
    destruct (String.eqb_spec tl suffix) as [->|Hne']; [|discriminate].
    intros [= <-]. auto.
  - intros [[Hne Hall] ->].
    assert (Hstrip : stripPrefix "/machine/" ("/machine/" ++ id ++ suffix)
                     = Some (id ++ suffix)) by (apply stripPrefix_some; reflexivity).
    rewrite Hstrip, (spanId_app _ _ Hall Hsuffix).
    destruct (String.eqb_spec id "") as [->|_]; [congruence|].
    rewrite String.eqb_refl. reflexivity.
Qed.

(** ** The router *)

Section Router.

Context {T H : Type} `{Tbl : MachineStateTable T H}.
Variable validateToken : string -> bool.
Variable startCycle : list string -> string -> bool.

(** C10. A request with a valid token whose method and path are none of
    POST /machine/request, GET /machine/{id} and POST /machine/{id}/start is
    answered INTERNAL_SERVER_ERROR with a null machine, and the state, store
    and cache included, stays as it was. *)
Theorem handle_unrouted_request
    (request : RequestModel) (w : World T H) :
  validateToken (Model.token request) = true ->
  ~ isRequestRoute (Model.method request) (Model.path request) ->
  ~ isGetRoute (Model.method request) (Model.path request) ->
  ~ isStartRoute (Model.method request) (Model.path request) ->
  handle validateToken startCycle request w
    = (Returned (mkResponse INTERNAL_SERVER_ERROR Null), w)
  /\ table (snd (handle validateToken startCycle request w)) = table w
  /\ cache (snd (handle validateToken startCycle request w)) = cache w.
Proof.
  intros Htok Hreq Hget Hstart.
  assert (Hres : handle validateToken startCycle request w
                 = (Returned (mkResponse INTERNAL_SERVER_ERROR Null), w)).
  { unfold handle. rewrite Htok. simpl.
    destruct (String.eqb_spec (Model.method request) "POST") as [Hpost|Hnopost].
    - destruct (String.eqb_spec (Model.path request) "/machine/request") as [Hpath|_].
      { exfalso. apply Hreq. split; assumption. }
      simpl.
      destruct (String.eqb_spec (Model.method request) "GET") as [Hg|_];
        [rewrite Hpost in Hg; discriminate|].
      destruct (matchMachinePath "/start" (Model.path request)) as [id|] eqn:Hm;
        [|reflexivity].
      exfalso. apply Hstart. split; [exact Hpost|]. exists id.
      apply matchMachinePath_some in Hm; [exact Hm | reflexivity].
    - simpl.
      destruct (String.eqb_spec (Model.method request) "GET") as [Hg|_];
        [|reflexivity].
      destruct (matchMachinePath "" (Model.path request)) as [id|] eqn:Hm;
        [|reflexivity].
      exfalso. apply Hget. split; [exact Hg|]. exists id.
      apply matchMachinePath_some in Hm; [|exact I].
      rewrite append_empty_r in Hm. exact Hm. }
  rewrite Hres. auto.
Qed.

End Router.

(** ** The tables show their own writes *)

Lemma updateStatus_status (t : list MachineStateDocument) (id : string)
    (s : MachineStatus) (d : MachineStateDocument) :
  In d (DurableTable.updateStatus t id s) -> machineId d = id -> status d = s.
Proof.
  unfold DurableTable.updateStatus. rewrite in_map_iff.
  intros (d0 & <- & _).
  destruct (String.eqb_spec (machineId d0) id) as [_|Hne];
    [reflexivity | intros Hid; contradiction].
Qed.

#[global] Instance durable_laws :
  MachineStateTableLaws (list MachineStateDocument) MachineStateDocument.
Proof.
  constructor. intros t id s h Hget. simpl in *.
  apply find_some in Hget as [Hin Hid].
  apply String.eqb_eq in Hid. exact (updateStatus_status _ _ _ _ Hin Hid).
Qed.

Lemma live_laws :
  @MachineStateTableLaws (list MachineStateDocument) nat LiveTable.live.
Proof.
  constructor. intros t id s i Hget. simpl in *.
  apply find_some in Hget as [Hin Hid].
  apply in_seq in Hin as [_ Hlt]. simpl in Hlt.
  apply String.eqb_eq in Hid.
  refine (updateStatus_status t id s _ _ Hid).
  apply nth_In. exact Hlt.
Qed.

Lemma lossy_laws :
  @MachineStateTableLaws (list MachineStateDocument) MachineStateDocument
                         LossyTable.lossy.
Proof.
  constructor. intros t id s h Hget. simpl in *.
  apply find_some in Hget as [Hin Hid].
  apply filter_In in Hin as [_ Hno]. rewrite Hid in Hno. discriminate.
Qed.

(** ** Reserve on the durable table *)

(** Marking every row of a machine id as awaiting drop-off and then binding
    the job to it leaves no row both available and bound. *)
Lemma reserve_updates_keep_invariant (t : list MachineStateDocument)
    (id j : string) :
  availableHasNoJob t ->
  availableHasNoJob
    (DurableTable.updateJobId (DurableTable.updateStatus t id AWAITING_DROPOFF) id j).
Proof.
  intros Hinv d Hin Hav.
  unfold DurableTable.updateJobId, DurableTable.updateStatus in Hin.
  rewrite List.map_map in Hin. apply in_map_iff in Hin as (d0 & <- & Hin0).
  destruct (String.eqb_spec (machineId d0) id) as [Hid|Hne].
  - simpl in Hav. rewrite Hid, String.eqb_refl in Hav. discriminate.
  - destruct (String.eqb_spec (machineId d0) id) as [|_]; [contradiction|].
    apply (Hinv d0 Hin0 Hav).
Qed.

(** C3. On a store where every available machine holds no job, a Reserve
    call leaves a store with the same property; in particular every record
    listed at the targeted location after the call that is available holds
    no job. *)
Theorem reserve_keeps_available_without_job
    (request : RequestModel)
    (w : World (list MachineStateDocument) MachineStateDocument) :
  availableHasNoJob (table w) ->
  availableHasNoJob (table (snd (handleRequestMachine request w)))
  /\ (forall d,
        In d (listMachinesAtLocation (table (snd (handleRequestMachine request w)))
                                     (Model.locationId request)) ->
        status d = AVAILABLE -> jobId d = None).
Proof.
  intros Hinv.
  assert (Hall : availableHasNoJob (table (snd (handleRequestMachine request w)))).
  { unfold handleRequestMachine.
    destruct (List.find _ _) as [chosen|]; simpl; [|exact Hinv].
    apply reserve_updates_keep_invariant, Hinv. }
  split; [exact Hall|].
  intros d Hin. apply Hall.
  simpl in Hin. unfold DurableTable.listAt in Hin.
  apply filter_In in Hin as [Hin _]. exact Hin.
Qed.

(** On the durable table a Reserve call that succeeds hands back, and puts
    into the cache, the record as it was read from the listing: its status
    is still AVAILABLE. *)
Lemma durable_reserve_hands_back_available
    (request : RequestModel)
    (w : World (list MachineStateDocument) MachineStateDocument)
    (d : MachineStateDocument) :
  fst (handleRequestMachine request w) = mkResponse OK (Machine d) ->
  status d = AVAILABLE
  /\ cache (snd (handleRequestMachine request w)) !! machineId d = Some d.
Proof.
  unfold handleRequestMachine.
  destruct (List.find _ _) as [chosen|] eqn:Hfind; simpl; [|discriminate].
  intros [= <-]. apply find_some in Hfind as [_ Hav].
  apply bool_decide_eq_true in Hav. split; [exact Hav|].
  apply lookup_insert_eq.
Qed.

Lemma live_row_map (f : MachineStateDocument -> MachineStateDocument)
    (t : list MachineStateDocument) (i : nat) :
  i < List.length t -> LiveTable.row (List.map f t) i = f (LiveTable.row t i).
Proof.
  intros Hlt. unfold LiveTable.row.
  rewrite (nth_indep _ LiveTable.blank (f LiveTable.blank))
    by (rewrite List.length_map; exact Hlt).
  apply map_nth.
Qed.

(** On the live table the object handed back is the stored row, and after the
    call it shows the reservation. *)
Lemma live_reserve_hands_back_reserved
    (request : RequestModel) (w : World (list MachineStateDocument) nat)
    (i : nat) :
  fst (handleRequestMachine (Tbl := LiveTable.live) request w)
    = mkResponse OK (Machine i) ->
  let w' := snd (handleRequestMachine (Tbl := LiveTable.live) request w) in
  status (docOf (MachineStateTable := LiveTable.live) (table w') i) = AWAITING_DROPOFF
  /\ jobId (docOf (MachineStateTable := LiveTable.live) (table w') i)
     = Some (Model.jobId request).
Proof.
  unfold handleRequestMachine.
  destruct (List.find _ _) as [chosen|] eqn:Hfind; simpl; [|discriminate].
  intros [= <-]. apply find_some in Hfind as [Hin _].
  unfold LiveTable.listAt in Hin. apply filter_In in Hin as [Hin _].
  apply in_seq in Hin as [_ Hlt]. simpl in Hlt.
  unfold DurableTable.updateJobId, DurableTable.updateStatus.
  rewrite !live_row_map by (rewrite ?List.length_map; exact Hlt).
  rewrite String.eqb_refl. simpl. rewrite String.eqb_refl. simpl. auto.
Qed.

(** The invariant is kept on the live table as well. *)
Lemma live_reserve_keeps_available_without_job
    (request : RequestModel) (w : World (list MachineStateDocument) nat) :
  availableHasNoJob (table w) ->
  availableHasNoJob
    (table (snd (handleRequestMachine (Tbl := LiveTable.live) request w))).
Proof.
  intros Hinv. unfold handleRequestMachine.
  destruct (List.find _ _) as [chosen|] eqn:Hfind; simpl; [|exact Hinv].
  apply find_some in Hfind as [Hin _].
  unfold LiveTable.listAt in Hin. apply filter_In in Hin as [Hin _].
  apply in_seq in Hin as [_ Hlt]. simpl in Hlt.
  unfold DurableTable.updateStatus at 2.
  rewrite live_row_map by exact Hlt.
  rewrite String.eqb_refl. simpl.
  apply reserve_updates_keep_invariant, Hinv.
Qed.

(** Scenario A on the durable table: Reserve at L1 for job j1 updates
    the row of m1 in the store to AWAITING_DROPOFF with job j1, yet the record
    it puts into the cache and hands back is m1 as read before the update,
    with status AVAILABLE and no job. *)
Theorem reserve_scenario_hands_back_record_read_before_update :
  let result := handleRequestMachine Scenario.reserveAtL1 Scenario.fresh in
  fst result = mkResponse OK (Machine Scenario.m1)
  /\ status Scenario.m1 = AVAILABLE
  /\ jobId Scenario.m1 = None
  /\ cache (snd result) !! "m1" = Some Scenario.m1
  /\ table (snd result) = [Scenario.m1Reserved; Scenario.m2]
  /\ getMachine (table (snd result)) "m1" = Some Scenario.m1Reserved.
Proof. vm_compute. repeat split; reflexivity. Qed.

(** Scenario A on the durable table, followed by GetState for m1: the
    store holds m1 with the status AWAITING_DROPOFF that Reserve wrote, and
    GetState answers the cached record, whose status is AVAILABLE. *)
Theorem get_state_after_reserve_scenario_is_stale :
  let reserved := snd (handleRequestMachine Scenario.reserveAtL1 Scenario.fresh) in
  let answer := fst (handleGetMachine (Scenario.getRequest "m1") reserved) in
  (status <$> getMachine (table reserved) "m1") = Some AWAITING_DROPOFF
  /\ answer = mkResponse OK (Machine Scenario.m1)
  /\ status Scenario.m1 = AVAILABLE.
Proof. vm_compute. repeat split; reflexivity. Qed.

(** The same two calls on the live table: GetState answers the stored row,
    which shows the reservation. *)
Example get_state_after_reserve_on_live_table :
  let fresh : World (list MachineStateDocument) nat :=
    mkWorld [Scenario.m1; Scenario.m2] ∅ [] in
  let reserved := snd (handleRequestMachine (Tbl := LiveTable.live)
                                            Scenario.reserveAtL1 fresh) in
  let answer := fst (handleGetMachine (Tbl := LiveTable.live)
                                      (Scenario.getRequest "m1") reserved) in
  answer = mkResponse OK (Machine 0)
  /\ LiveTable.row (table reserved) 0 = Scenario.m1Reserved.
Proof. vm_compute. split; reflexivity. Qed.

(** ** The theorems at work on the scenarios *)

Lemma reserve_without_candidate_witness :
  (forall h, In h (listMachinesAtLocation (table Scenario.reserved) "L1") ->
             status h <> AVAILABLE)
  /\ handleRequestMachine Scenario.reserveAtL1 Scenario.reserved
     = (mkResponse NOT_FOUND Absent, Scenario.reserved).
Proof.
  assert (Hnone : forall h,
             In h (listMachinesAtLocation (table Scenario.reserved) "L1") ->
             status h <> AVAILABLE).
  { intros h [<-|[<-|[]]]; discriminate. }
  split; [exact Hnone|].
  exact (proj1 (reserve_without_candidate_is_not_found
                  Scenario.reserveAtL1 Scenario.reserved Hnone)).
Defined.

Lemma reserve_picks_first_available_witness :
  let w : World (list MachineStateDocument) MachineStateDocument :=
    mkWorld [Scenario.m2; Scenario.m1] ∅ [] in
  In Scenario.m1 (listMachinesAtLocation (table w) "L1")
  /\ status Scenario.m1 = AVAILABLE
  /\ exists pre chosen post,
       listMachinesAtLocation (table w) "L1" = (pre ++ chosen :: post)%list
       /\ (forall h, In h pre -> status h <> AVAILABLE)
       /\ status chosen = AVAILABLE
       /\ fst (handleRequestMachine Scenario.reserveAtL1 w)
          = mkResponse OK (Machine chosen).
Proof.
  intros w.
  assert (Hin : In Scenario.m1 (listMachinesAtLocation (table w) "L1"))
    by (right; left; reflexivity).
  split; [exact Hin|]. split; [reflexivity|].
  destruct (reserve_picks_first_available Scenario.reserveAtL1 w Scenario.m1
              Hin eq_refl)
    as (pre & chosen & post & Hsplit & Hpre & Hav & Hres & _).
  exists pre, chosen, post. auto.
Defined.

Lemma start_in_wrong_state_witness :
  getMachine (table Scenario.fresh) "m2" = Some Scenario.m2
  /\ status Scenario.m2 <> AWAITING_DROPOFF
  /\ handleStartMachine Scenario.deviceWorks (Scenario.startRequest "m2")
                        Scenario.fresh
     = (mkResponse BAD_REQUEST (Machine Scenario.m2), Scenario.fresh)
  /\ startCycleCalls (snd (handleStartMachine Scenario.deviceWorks
                             (Scenario.startRequest "m2") Scenario.fresh)) = [].
Proof.
  assert (Hst : status Scenario.m2 <> AWAITING_DROPOFF) by discriminate.
  split; [reflexivity|]. split; [exact Hst|].
  destruct (start_in_wrong_state_is_bad_request (Tbl := DurableTable.durable)
              Scenario.deviceWorks
              (Scenario.startRequest "m2") Scenario.fresh Scenario.m2
              eq_refl Hst) as (Hres & Hcalls & _).
  split; [exact Hres | exact Hcalls].
Defined.

Lemma get_state_on_cache_miss_witness :
  (cache Scenario.fresh !! "m9" = None
   /\ getMachine (table Scenario.fresh) "m9" = None
   /\ handleGetMachine (Scenario.getRequest "m9") Scenario.fresh
      = (mkResponse NOT_FOUND Absent, Scenario.fresh))
  /\ (cache Scenario.fresh !! "m2" = None
      /\ getMachine (table Scenario.fresh) "m2" = Some Scenario.m2
      /\ handleGetMachine (Scenario.getRequest "m2") Scenario.fresh
         = (mkResponse OK (Machine Scenario.m2),
            mkWorld [Scenario.m1; Scenario.m2] (<["m2" := Scenario.m2]> ∅) [])).
Proof.
  split.
  - split; [reflexivity|]. split; [reflexivity|].
    exact (proj1 (proj1 (get_state_on_cache_miss (Tbl := DurableTable.durable)
                           (Scenario.getRequest "m9")
                           Scenario.fresh eq_refl) eq_refl)).
  - split; [reflexivity|]. split; [reflexivity|].
    exact (proj1 (proj2 (get_state_on_cache_miss (Tbl := DurableTable.durable)
                           (Scenario.getRequest "m2")
                           Scenario.fresh eq_refl) Scenario.m2 eq_refl)).
Defined.

Lemma start_with_failing_device_witness :
  (getMachine (table Scenario.reserved) "m1" = Some Scenario.m1Reserved
   /\ status Scenario.m1Reserved = AWAITING_DROPOFF
   /\ Scenario.deviceBroken [] "m1" = false
   /\ handleStartMachine Scenario.deviceBroken (Scenario.startRequest "m1")
                         Scenario.reserved
      = (mkResponse HARDWARE_ERROR (Machine Scenario.m1Error),
         mkWorld [Scenario.m1Error; Scenario.m2]
                 (<["m1" := Scenario.m1Error]> ∅) ["m1"])
   /\ status Scenario.m1Error = ERROR)
  /\ handleStartMachine (Tbl := LossyTable.lossy) Scenario.deviceBroken
                        (Scenario.startRequest "m1") Scenario.reserved
     = (mkResponse INTERNAL_SERVER_ERROR Absent, mkWorld [Scenario.m2] ∅ ["m1"]).
Proof.
  split.
  - split; [reflexivity|]. split; [reflexivity|]. split; [reflexivity|].
    exact (start_with_failing_device (Laws := durable_laws) Scenario.deviceBroken
             (Scenario.startRequest "m1") Scenario.reserved Scenario.m1Reserved
             eq_refl eq_refl eq_refl).
  - exact (start_with_failing_device (Laws := lossy_laws) Scenario.deviceBroken
             (Scenario.startRequest "m1") Scenario.reserved Scenario.m1Reserved
             eq_refl eq_refl eq_refl).
Defined.

Lemma start_with_working_device_witness :
  (getMachine (table Scenario.reserved) "m1" = Some Scenario.m1Reserved
   /\ status Scenario.m1Reserved = AWAITING_DROPOFF
   /\ Scenario.deviceWorks [] "m1" = true
   /\ handleStartMachine Scenario.deviceWorks (Scenario.startRequest "m1")
                         Scenario.reserved
      = (mkResponse OK (Machine Scenario.m1Running),
         mkWorld [Scenario.m1Running; Scenario.m2]
                 (<["m1" := Scenario.m1Running]> ∅) ["m1"])
   /\ status Scenario.m1Running = RUNNING)
  /\ handleStartMachine (Tbl := LossyTable.lossy) Scenario.deviceWorks
                        (Scenario.startRequest "m1") Scenario.reserved
     = (mkResponse INTERNAL_SERVER_ERROR Absent, mkWorld [Scenario.m2] ∅ ["m1"]).
Proof.
  split.
  - split; [reflexivity|]. split; [reflexivity|]. split; [reflexivity|].
    exact (start_with_working_device (Laws := durable_laws) Scenario.deviceWorks
             (Scenario.startRequest "m1") Scenario.reserved Scenario.m1Reserved
             eq_refl eq_refl eq_refl).
  - exact (start_with_working_device (Laws := lossy_laws) Scenario.deviceWorks
             (Scenario.startRequest "m1") Scenario.reserved Scenario.m1Reserved
             eq_refl eq_refl eq_refl).
Defined.

Lemma reserve_keeps_available_without_job_witness :
  availableHasNoJob (table Scenario.fresh)
  /\ availableHasNoJob
       (table (snd (handleRequestMachine Scenario.reserveAtL1 Scenario.fresh))).
Proof.
  assert (Hinv : availableHasNoJob (table Scenario.fresh)).
  { intros d [<-|[<-|[]]] _; reflexivity. }
  split; [exact Hinv|].
  exact (proj1 (reserve_keeps_available_without_job Scenario.reserveAtL1
                  Scenario.fresh Hinv)).
Defined.

Lemma handle_unrouted_request_witness :
  let request := mkRequest "POST" "/machine/m1" "token" "" "" in
  Scenario.anyToken (Model.token request) = true
  /\ ~ isRequestRoute (Model.method request) (Model.path request)
  /\ ~ isGetRoute (Model.method request) (Model.path request)
  /\ ~ isStartRoute (Model.method request) (Model.path request)
  /\ handle Scenario.anyToken Scenario.deviceWorks request Scenario.fresh
     = (Returned (mkResponse INTERNAL_SERVER_ERROR Null), Scenario.fresh).
Proof.
  intros request.
  assert (Hreq : ~ isRequestRoute (Model.method request) (Model.path request)).
  { intros [_ Hpath]. discriminate Hpath. }
  assert (Hget : ~ isGetRoute (Model.method request) (Model.path request)).
  { intros [Hm _]. discriminate Hm. }
  assert (Hstart : ~ isStartRoute (Model.method request) (Model.path request)).
  { intros [_ (id & Hv & Hpath)].
    assert (Hmatch : matchMachinePath "/start" (Model.path request) = Some id).
    { apply matchMachinePath_some; [reflexivity | split; assumption]. }
    vm_compute in Hmatch. discriminate Hmatch. }
  split; [reflexivity|]. split; [exact Hreq|]. split; [exact Hget|].
  split; [exact Hstart|].
  exact (proj1 (handle_unrouted_request (Tbl := DurableTable.durable)
                  Scenario.anyToken Scenario.deviceWorks
                  request Scenario.fresh eq_refl Hreq Hget Hstart)).
Defined.

(** * Further properties of the handler *)

(** ** Effects of the three handlers, over any table *)

Section HandlerEffects.

Context {T H : Type} `{Tbl : MachineStateTable T H}.
Variable startCycle : list string -> string -> bool.

Lemma reserve_leaves_device_alone (request : RequestModel) (w : World T H) :
  startCycleCalls (snd (handleRequestMachine request w)) = startCycleCalls w.
Proof.
  unfold handleRequestMachine. destruct (List.find _ _); reflexivity.
Qed.

Lemma reserve_cache_step (request : RequestModel) (w : World T H) :
  cache (snd (handleRequestMachine request w)) = cache w
  \/ exists k h, cache (snd (handleRequestMachine request w)) = <[k := h]> (cache w).
Proof.
  unfold handleRequestMachine. destruct (List.find _ _); simpl; eauto.
Qed.

Lemma get_state_cache_step (request : MachineIdRequestModel) (w : World T H) :
  cache (snd (handleGetMachine request w)) = cache w
  \/ exists k h, cache (snd (handleGetMachine request w)) = <[k := h]> (cache w).
Proof.
  unfold handleGetMachine. destruct (cacheGet _ _); [auto|].
  destruct (getMachine _ _); simpl; eauto.
Qed.

Lemma start_cache_step (request : MachineIdRequestModel) (w : World T H) :
  cache (snd (handleStartMachine startCycle request w)) = cache w
  \/ exists k h,
       cache (snd (handleStartMachine startCycle request w)) = <[k := h]> (cache w).
Proof.
  unfold handleStartMachine. destruct (getMachine (table w) _); [|auto].
  destruct (bool_decide _); [auto|].
  destruct (startCycle _ _); simpl;
    destruct (getMachine (updateMachineStatus _ _ _) _); simpl; eauto.
Qed.

(** X6. GetState is idempotent: a second GetState for the same id answers
    what the first answered and leaves the state the first left. *)
Theorem get_state_twice (request : MachineIdRequestModel) (w : World T H) :
  handleGetMachine request (snd (handleGetMachine request w))
  = (fst (handleGetMachine request w), snd (handleGetMachine request w)).
Proof.
  unfold handleGetMachine, cacheGet.
  destruct (cache w !! Model.machineId request) as [cached|] eqn:Hc; simpl.
  - rewrite Hc. reflexivity.
  - destruct (getMachine (table w) (Model.machineId request)) as [stored|] eqn:Hg;
      simpl.
    + rewrite lookup_insert_eq. reflexivity.
    + rewrite Hc, Hg. reflexivity.
Qed.

(** X7. GetState never writes the store and never calls the device; it
    leaves every cache entry under another id alone, and an entry that is
    already cached under the id is answered as it is, whatever the store
    holds, and stays. *)
Theorem get_state_is_read_only (request : MachineIdRequestModel) (w : World T H) :
  let id := Model.machineId request in
  let w' := snd (handleGetMachine request w) in
  table w' = table w
  /\ startCycleCalls w' = startCycleCalls w
  /\ (forall k, k <> id -> cache w' !! k = cache w !! k)
  /\ (forall cached, cache w !! id = Some cached ->
        fst (handleGetMachine request w) = mkResponse OK (Machine cached)
        /\ w' = w).
Proof.
  intros id w'. subst id w'. unfold handleGetMachine, cacheGet.
  destruct (cache w !! Model.machineId request) as [cached|] eqn:Hc; simpl.
  - split; [reflexivity|]. split; [reflexivity|]. split; [reflexivity|].
    intros c [= <-]. split; reflexivity.
  - destruct (getMachine (table w) (Model.machineId request)) as [stored|]; simpl.
    + split; [reflexivity|]. split; [reflexivity|]. split; [|discriminate].
      intros k Hk. apply lookup_insert_ne. congruence.
    + split; [reflexivity|]. split; [reflexivity|]. split; [reflexivity|discriminate].
Qed.

(** X8. StartCycle for an id the store does not hold answers NOT_FOUND and
    leaves the state as it was: the cache is not consulted, so an entry
    cached under the id changes nothing, and the device is not called. *)
Theorem start_unknown_machine_is_not_found
    (request : MachineIdRequestModel) (w : World T H) :
  getMachine (table w) (Model.machineId request) = None ->
  handleStartMachine startCycle request w = (mkResponse NOT_FOUND Absent, w).
Proof.
  intros Hget. unfold handleStartMachine. rewrite Hget. reflexivity.
Qed.

(** X9. StartCycle calls the device exactly when the store holds the machine
    with status AWAITING_DROPOFF, and then once, with the id of the request;
    in every other case the whole state stays as it was. *)
Theorem start_calls_device_once_when_awaiting
    (request : MachineIdRequestModel) (w : World T H) :
  let id := Model.machineId request in
  let w' := snd (handleStartMachine startCycle request w) in
  ((exists h, getMachine (table w) id = Some h
              /\ status (docOf (table w) h) = AWAITING_DROPOFF)
   /\ startCycleCalls w' = (startCycleCalls w ++ [id])%list)
  \/ ((forall h, getMachine (table w) id = Some h ->
                 status (docOf (table w) h) <> AWAITING_DROPOFF)
      /\ w' = w).
Proof.
  intros id w'. subst id w'. unfold handleStartMachine.
  destruct (getMachine (table w) (Model.machineId request)) as [h|] eqn:Hget.
  - destruct (decide (status (docOf (table w) h) = AWAITING_DROPOFF)) as [Hst|Hst].
    + left. split; [eauto|].
      rewrite bool_decide_false by (intros Hne; apply Hne, Hst).
      destruct (startCycle _ _); simpl;
        destruct (getMachine (updateMachineStatus _ _ _) _); reflexivity.
    + right. rewrite bool_decide_true by exact Hst.
      split; [|reflexivity]. intros h' [= <-]. exact Hst.
  - right. split; [discriminate | reflexivity].
Qed.

(** X12. GetState right after a Reserve that succeeded, asked for the id of
    the machine Reserve handed back, answers that same machine object and
    changes nothing. *)
Theorem get_state_after_reserve_answers_reserved_object
    (request : RequestModel) (query : MachineIdRequestModel)
    (w : World T H) (h : H) :
  fst (handleRequestMachine request w) = mkResponse OK (Machine h) ->
  Model.machineId query
    = machineId (docOf (table (snd (handleRequestMachine request w))) h) ->
  handleGetMachine query (snd (handleRequestMachine request w))
  = (mkResponse OK (Machine h), snd (handleRequestMachine request w)).
Proof.
  unfold handleRequestMachine.
  destruct (List.find _ _) as [chosen|]; simpl; [|discriminate].
  intros [= <-] Hid. unfold handleGetMachine, cacheGet. simpl.
  rewrite Hid, lookup_insert_eq. reflexivity.
Qed.

End HandlerEffects.

Section HandlerShapes.

Context {T H : Type} `{Tbl : MachineStateTable T H}.
Variable startCycle : list string -> string -> bool.

Lemma get_state_leaves_device_alone (request : MachineIdRequestModel) (w : World T H) :
  startCycleCalls (snd (handleGetMachine request w)) = startCycleCalls w.
Proof.
  unfold handleGetMachine. destruct (cacheGet _ _); [reflexivity|].
  destruct (getMachine _ _); reflexivity.
Qed.

Lemma start_device_step (request : MachineIdRequestModel) (w : World T H) :
  startCycleCalls (snd (handleStartMachine startCycle request w)) = startCycleCalls w
  \/ startCycleCalls (snd (handleStartMachine startCycle request w))
     = (startCycleCalls w ++ [Model.machineId request])%list.
Proof.
  unfold handleStartMachine. destruct (getMachine (table w) _); [|auto].
  destruct (bool_decide _); [auto|]. right.
  destruct (startCycle _ _); simpl;
    destruct (getMachine (updateMachineStatus _ _ _) _); reflexivity.
Qed.

Lemma reserve_response_shape (request : RequestModel) (w : World T H) :
  responseShape (fst (handleRequestMachine request w)).
Proof.
  unfold handleRequestMachine, responseShape.
  destruct (List.find _ _); simpl; auto.
Qed.

Lemma get_state_response_shape (request : MachineIdRequestModel) (w : World T H) :
  responseShape (fst (handleGetMachine request w)).
Proof.
  unfold handleGetMachine, responseShape. destruct (cacheGet _ _); simpl; [auto|].
  destruct (getMachine _ _); simpl; auto.
Qed.

Lemma start_response_shape (request : MachineIdRequestModel) (w : World T H) :
  responseShape (fst (handleStartMachine startCycle request w)).
Proof.
  unfold handleStartMachine, responseShape.
  destruct (getMachine (table w) _); simpl; [|auto].
  destruct (bool_decide _); simpl; [auto|].
  destruct (startCycle _ _); simpl;
    destruct (getMachine (updateMachineStatus _ _ _) _); simpl; auto.
Qed.

End HandlerShapes.

(** ** StartCycle, once more *)

Section StartTwice.

Context {T H : Type} `{Laws : MachineStateTableLaws T H}.
Variable startCycle : list string -> string -> bool.

(** X11. A second StartCycle for a machine whose first StartCycle went
    through (the device was called, the status written and the record found
    again) answers BAD_REQUEST with that record, whether the device had
    worked or failed, and leaves the state alone: the device is not called a
    second time. *)
Theorem start_twice_is_bad_request
    (request : MachineIdRequestModel) (w : World T H) (current refreshed : H) :
  let id := Model.machineId request in
  let written := if startCycle (startCycleCalls w) id then RUNNING else ERROR in
  getMachine (table w) id = Some current ->
  status (docOf (table w) current) = AWAITING_DROPOFF ->
  getMachine (updateMachineStatus (table w) id written) id = Some refreshed ->
  let w' := snd (handleStartMachine startCycle request w) in
  handleStartMachine startCycle request w'
    = (mkResponse BAD_REQUEST (Machine refreshed), w')
  /\ startCycleCalls w' = (startCycleCalls w ++ [id])%list.
Proof.
  intros id written Hget Hst Hreread w'.
  assert (Hw' : w' = mkWorld (updateMachineStatus (table w) id written)
                             (<[id := refreshed]> (cache w))
                             (startCycleCalls w ++ [id])%list).
  { subst w' written. unfold handleStartMachine. fold id. rewrite Hget.
    rewrite bool_decide_false by (intros Hne; apply Hne, Hst).
    destruct (startCycle (startCycleCalls w) id); simpl;
      rewrite Hreread; reflexivity. }
  assert (Hstatus : status (docOf (updateMachineStatus (table w) id written) refreshed)
                    = written)
    by (apply getMachine_updateMachineStatus; exact Hreread).
  rewrite Hw'. split; [|reflexivity].
  unfold handleStartMachine. fold id. simpl. rewrite Hreread.
  rewrite bool_decide_true; [reflexivity|].
  rewrite Hstatus. subst written.
  destruct (startCycle (startCycleCalls w) id); discriminate.
Qed.

End StartTwice.

(** ** The path patterns *)

(** X5. The two path patterns of the router: the first accepts exactly the
    paths /machine/<id>, the second exactly the paths /machine/<id>/start,
    with an id of one or more characters of [[a-zA-Z0-9-]], and each answers
    that id. *)
Theorem machine_path_patterns (path id : string) :
  (matchMachinePath "" path = Some id
   <-> validMachineId id /\ path = "/machine/" ++ id)
  /\ (matchMachinePath "/start" path = Some id
      <-> validMachineId id /\ path = "/machine/" ++ id ++ "/start").
Proof.
  split.
  - rewrite (matchMachinePath_some "" path id I), append_empty_r. reflexivity.
  - apply matchMachinePath_some. reflexivity.
Qed.

(** ** The router, route by route *)

Section Routes.

Context {T H : Type} `{Tbl : MachineStateTable T H}.
Variable validateToken : string -> bool.
Variable startCycle : list string -> string -> bool.

(** X1. A request whose token the identity provider rejects ends in the
    thrown error with code UNAUTHORIZED and message Invalid token, whatever
    its method and path, and the state is left as it was: no handler runs. *)
Theorem handle_rejects_invalid_token (request : RequestModel) (w : World T H) :
  validateToken (Model.token request) = false ->
  handle validateToken startCycle request w
  = (Thrown UNAUTHORIZED "Invalid token", w).
Proof.
  intros Htok. unfold handle. rewrite Htok. reflexivity.
Qed.

(** X2. With a valid token, POST /machine/request is answered by
    [handleRequestMachine] on the request. *)
Theorem handle_routes_reserve (request : RequestModel) (w : World T H) :
  validateToken (Model.token request) = true ->
  isRequestRoute (Model.method request) (Model.path request) ->
  handle validateToken startCycle request w
  = (Returned (fst (handleRequestMachine request w)),
     snd (handleRequestMachine request w)).
Proof.
  intros Htok [Hm Hp]. unfold handle. rewrite Htok, Hm, Hp. simpl.
  destruct (handleRequestMachine request w). reflexivity.
Qed.

(** X3. With a valid token, GET /machine/<id> with a valid id is answered by
    [handleGetMachine] for that id. *)
Theorem handle_routes_get_state (request : RequestModel) (w : World T H)
    (id : string) :
  validateToken (Model.token request) = true ->
  Model.method request = "GET" ->
  validMachineId id ->
  Model.path request = "/machine/" ++ id ->
  handle validateToken startCycle request w
  = (Returned (fst (handleGetMachine (withMachineId request id) w)),
     snd (handleGetMachine (withMachineId request id) w)).
Proof.
  intros Htok Hm Hid Hp.
  assert (Hmatch : matchMachinePath "" (Model.path request) = Some id).
  { apply matchMachinePath_some; [exact I|]. rewrite append_empty_r. auto. }
  unfold handle. rewrite Htok, Hmatch, Hm. simpl.
  destruct (handleGetMachine (withMachineId request id) w). reflexivity.
Qed.

(** X4. With a valid token, POST /machine/<id>/start with a valid id is
    answered by [handleStartMachine] for that id. *)
Theorem handle_routes_start (request : RequestModel) (w : World T H)
    (id : string) :
  validateToken (Model.token request) = true ->
  Model.method request = "POST" ->
  validMachineId id ->
  Model.path request = "/machine/" ++ id ++ "/start" ->
  handle validateToken startCycle request w
  = (Returned (fst (handleStartMachine startCycle (withMachineId request id) w)),
     snd (handleStartMachine startCycle (withMachineId request id) w)).
Proof.
  intros Htok Hm Hid Hp.
  assert (Hmatch : matchMachinePath "/start" (Model.path request) = Some id).
  { apply matchMachinePath_some; [reflexivity | auto]. }
  assert (Hother : String.eqb (Model.path request) "/machine/request" = false).
  { destruct (String.eqb_spec (Model.path request) "/machine/request") as [He|];
      [|reflexivity].
    rewrite He in Hmatch. vm_compute in Hmatch. discriminate Hmatch. }
  unfold handle. rewrite Htok, Hmatch, Hother, Hm. simpl.
  destruct (handleStartMachine startCycle (withMachineId request id) w).
  reflexivity.
Qed.

(** X10. Whatever the request, [handle] calls the device at most once, and
    only when the token is valid and the request is POST /machine/<id>/start,
    with the id of the path: a request with a rejected token, a Reserve, a
    GetState and an unrouted request leave the device alone. *)
Theorem handle_calls_device_only_on_start_route
    (request : RequestModel) (w : World T H) :
  let w' := snd (handle validateToken startCycle request w) in
  startCycleCalls w' = startCycleCalls w
  \/ exists id,
       validateToken (Model.token request) = true
       /\ Model.method request = "POST"
       /\ validMachineId id
       /\ Model.path request = "/machine/" ++ id ++ "/start"
       /\ startCycleCalls w' = (startCycleCalls w ++ [id])%list.
Proof.
  intros w'. subst w'. unfold handle.
  destruct (validateToken _) eqn:Htok; simpl; [|auto].
  destruct (String.eqb (Model.method request) "POST"
            && String.eqb (Model.path request) "/machine/request").
  { left. pose proof (reserve_leaves_device_alone request w) as Hr.
    destruct (handleRequestMachine request w). exact Hr. }
  destruct (String.eqb (Model.method request) "GET").
  - destruct (matchMachinePath "" (Model.path request)) as [id|].
    + left. pose proof (get_state_leaves_device_alone (withMachineId request id) w) as Hg.
      destruct (handleGetMachine _ w). exact Hg.
    + destruct (String.eqb_spec (Model.method request) "POST") as [Hm|]; [|auto].
      destruct (matchMachinePath "/start" (Model.path request)) as [id|] eqn:Hs;
        [|auto].
      apply matchMachinePath_some in Hs as [Hv Hp]; [|reflexivity].
      pose proof (start_device_step startCycle (withMachineId request id) w) as Hd.
      destruct (handleStartMachine startCycle _ w). simpl in *.
      destruct Hd as [Hd|Hd]; [auto | right; exists id; auto].
  - destruct (String.eqb_spec (Model.method request) "POST") as [Hm|]; [|auto].
    destruct (matchMachinePath "/start" (Model.path request)) as [id|] eqn:Hs;
      [|auto].
    apply matchMachinePath_some in Hs as [Hv Hp]; [|reflexivity].
    pose proof (start_device_step startCycle (withMachineId request id) w) as Hd.
    destruct (handleStartMachine startCycle _ w). simpl in *.
    destruct Hd as [Hd|Hd]; [auto | right; exists id; auto].
Qed.

Lemma handle_cache_step (request : RequestModel) (w : World T H) :
  cache (snd (handle validateToken startCycle request w)) = cache w
  \/ exists k h,
       cache (snd (handle validateToken startCycle request w)) = <[k := h]> (cache w).
Proof.
  unfold handle. destruct (validateToken _); simpl; [|auto].
  destruct (_ && _).
  { pose proof (reserve_cache_step request w) as Hr.
    destruct (handleRequestMachine request w). exact Hr. }
  destruct (if String.eqb (Model.method request) "GET" then _ else _) as [id|].
  { pose proof (get_state_cache_step (withMachineId request id) w) as Hg.
    destruct (handleGetMachine _ w). exact Hg. }
  destruct (if String.eqb (Model.method request) "POST" then _ else _) as [id|];
    [|auto].
  pose proof (start_cache_step startCycle (withMachineId request id) w) as Hs.
  destruct (handleStartMachine startCycle _ w). exact Hs.
Qed.

(** X16. No request evicts a cache entry: every id cached before a call of
    [handle] is cached after it. *)
Theorem handle_keeps_cache_entries (request : RequestModel) (w : World T H) :
  dom (cache w) ⊆ dom (cache (snd (handle validateToken startCycle request w))).
Proof.
  destruct (handle_cache_step request w) as [-> | (k & h & ->)].
  - reflexivity.
  - rewrite dom_insert_L. set_solver.
Qed.

(** X17. What [handle] hands back: a thrown error always has code
    UNAUTHORIZED; a returned response carries a machine object exactly with
    OK, BAD_REQUEST and HARDWARE_ERROR, none with NOT_FOUND, and none or null
    with INTERNAL_SERVER_ERROR. *)
Theorem handle_response_shape (request : RequestModel) (w : World T H) :
  match fst (handle validateToken startCycle request w) with
  | Returned r => responseShape r /\ statusCode r <> UNAUTHORIZED
  | Thrown code _ => code = UNAUTHORIZED
  end.
Proof.
  assert (Hcode : forall r : MachineResponseModel H,
             responseShape r -> responseShape r /\ statusCode r <> UNAUTHORIZED).
  { intros [code [| |h]]; unfold responseShape; simpl; intros Hs;
      (split; [exact Hs|]); intuition congruence. }
  unfold handle. destruct (validateToken _); simpl; [|reflexivity].
  destruct (_ && _).
  { pose proof (reserve_response_shape request w) as Hr.
    destruct (handleRequestMachine request w). apply Hcode, Hr. }
  destruct (if String.eqb (Model.method request) "GET" then _ else _) as [id|].
  { pose proof (get_state_response_shape (withMachineId request id) w) as Hg.
    destruct (handleGetMachine _ w). apply Hcode, Hg. }
  destruct (if String.eqb (Model.method request) "POST" then _ else _) as [id|].
  - pose proof (start_response_shape startCycle (withMachineId request id) w) as Hs.
    destruct (handleStartMachine startCycle _ w). apply Hcode, Hs.
  - simpl. split; [reflexivity | discriminate].
Qed.

End Routes.

(** ** Sequences of requests on the durable table *)

Lemma reserve_updates_are_one_update (t : list MachineStateDocument) (id j : string) :
  DurableTable.updateJobId (DurableTable.updateStatus t id AWAITING_DROPOFF) id j
  = List.map (reserveRow id j) t.
Proof.
  unfold DurableTable.updateJobId, DurableTable.updateStatus.
  rewrite List.map_map. apply List.map_ext. intros d. unfold reserveRow.
  destruct (String.eqb (machineId d) id) eqn:Hid; simpl; rewrite Hid; reflexivity.
Qed.

(** What a Reserve call that succeeds on the durable table has done. *)
Lemma durable_reserve_success (request : RequestModel)
    (w : World (list MachineStateDocument) MachineStateDocument)
    (d : MachineStateDocument) :
  fst (handleRequestMachine request w) = mkResponse OK (Machine d) ->
  In d (DurableTable.listAt (table w) (Model.locationId request))
  /\ status d = AVAILABLE
  /\ snd (handleRequestMachine request w)
     = mkWorld (List.map (reserveRow (machineId d) (Model.jobId request)) (table w))
               (<[machineId d := d]> (cache w))
               (startCycleCalls w).
Proof.
  unfold handleRequestMachine.
  destruct (List.find _ _) as [chosen|] eqn:Hfind; simpl; [|discriminate].
  intros [= <-]. apply find_some in Hfind as [Hin Hav].
  apply bool_decide_eq_true in Hav.
  split; [exact Hin|]. split; [exact Hav|].
  unfold cachePut, setTable. simpl.
  rewrite reserve_updates_are_one_update. reflexivity.
Qed.

Lemma reserveRow_of_id (id j : string) (d0 d : MachineStateDocument) :
  d = reserveRow id j d0 -> machineId d = id ->
  machineId d0 = id /\ status d = AWAITING_DROPOFF /\ jobId d = Some j.
Proof.
  unfold reserveRow. intros -> Hid.
  destruct (String.eqb_spec (machineId d0) id) as [H0|H0]; simpl in *; auto.
  contradiction.
Qed.

Lemma listAt_map (h : MachineStateDocument -> MachineStateDocument)
    (t : list MachineStateDocument) (loc : string) :
  (forall d, locationId (h d) = locationId d) ->
  DurableTable.listAt (List.map h t) loc = List.map h (DurableTable.listAt t loc).
Proof.
  intros Hloc. unfold DurableTable.listAt.
  induction t as [|d t IH]; simpl; [reflexivity|].
  rewrite Hloc. destruct (String.eqb (locationId d) loc); simpl; rewrite IH; reflexivity.
Qed.

Lemma reserveRow_locationId (id j : string) (d : MachineStateDocument) :
  locationId (reserveRow id j d) = locationId d.
Proof. unfold reserveRow. destruct (String.eqb _ _); reflexivity. Qed.

Lemma reserveRow_available (id j : string) (d : MachineStateDocument) :
  status (reserveRow id j d) = AVAILABLE -> reserveRow id j d = d.
Proof. unfold reserveRow. destruct (String.eqb _ _); [discriminate | reflexivity]. Qed.

Lemma availableCount_map_le (h : MachineStateDocument -> MachineStateDocument)
    (l : list MachineStateDocument) :
  (forall d, status (h d) = AVAILABLE -> status d = AVAILABLE) ->
  availableCount (List.map h l) <= availableCount l.
Proof.
  intros Hh. unfold availableCount.
  induction l as [|d l IH]; simpl; [lia|].
  destruct (decide (status (h d) = AVAILABLE)) as [Hd|Hd].
  - rewrite !bool_decide_true by auto. simpl. lia.
  - rewrite (bool_decide_false _ Hd). destruct (bool_decide _); simpl; lia.
Qed.

Lemma availableCount_map_lt (h : MachineStateDocument -> MachineStateDocument)
    (l : list MachineStateDocument) (d : MachineStateDocument) :
  (forall d, status (h d) = AVAILABLE -> status d = AVAILABLE) ->
  In d l -> status d = AVAILABLE -> status (h d) <> AVAILABLE ->
  availableCount (List.map h l) < availableCount l.
Proof.
  intros Hh Hin Hav Hgone.
  induction l as [|a l IH]; [destruct Hin|].
  pose proof (availableCount_map_le h l Hh) as Hle.
  unfold availableCount in *. simpl.
  destruct Hin as [->|Hin].
  - rewrite (bool_decide_false _ Hgone), (bool_decide_true _ Hav). simpl. lia.
  - specialize (IH Hin).
    destruct (decide (status (h a) = AVAILABLE)) as [Ha|Ha].
    + rewrite !bool_decide_true by auto. simpl. lia.
    + rewrite (bool_decide_false _ Ha). destruct (bool_decide _); simpl; lia.
Qed.

Lemma find_available_none_of_count (l : list MachineStateDocument) :
  availableCount l = 0 ->
  List.find (fun d => bool_decide (status d = AVAILABLE)) l = None.
Proof.
  unfold availableCount. induction l as [|d l IH]; simpl; [reflexivity|].
  destruct (bool_decide _); simpl; [discriminate | exact IH].
Qed.

Lemma neverFreed_map (h : MachineStateDocument -> MachineStateDocument)
    (t : list MachineStateDocument) :
  (forall d, neverFreed d (h d)) -> Forall2 neverFreed t (List.map h t).
Proof.
  intros Hh. induction t as [|d t IH]; simpl; constructor; auto.
Qed.

Lemma neverFreed_refl (t : list MachineStateDocument) : Forall2 neverFreed t t.
Proof.
  induction t as [|d t IH]; constructor; [|exact IH].
  unfold neverFreed. auto.
Qed.

Lemma neverFreed_reserveRow (id j : string) (d : MachineStateDocument) :
  neverFreed d (reserveRow id j d).
Proof.
  unfold neverFreed, reserveRow.
  destruct (String.eqb _ _); simpl; repeat split; auto; discriminate.
Qed.

Lemma neverFreed_updateStatus (t : list MachineStateDocument) (id : string)
    (s : MachineStatus) :
  s <> AVAILABLE -> Forall2 neverFreed t (DurableTable.updateStatus t id s).
Proof.
  intros Hs. apply neverFreed_map. intros d. unfold neverFreed.
  destruct (String.eqb _ _); simpl; repeat split; auto. intros; contradiction.
Qed.

(** X18. On the durable table the two updates of a Reserve call that
    succeeds amount to one compound update: every row stored under the id of
    the machine handed back gets status AWAITING_DROPOFF and the job of the
    request, every other row is as before; the cache gets the machine under
    its id and the device is not called. *)
Theorem reserve_is_one_compound_update (request : RequestModel)
    (w : World (list MachineStateDocument) MachineStateDocument)
    (d : MachineStateDocument) :
  fst (handleRequestMachine request w) = mkResponse OK (Machine d) ->
  let w' := snd (handleRequestMachine request w) in
  table w' = List.map (reserveRow (machineId d) (Model.jobId request)) (table w)
  /\ (forall r, In r (table w) -> machineId r <> machineId d ->
                reserveRow (machineId d) (Model.jobId request) r = r)
  /\ cache w' = <[machineId d := d]> (cache w)
  /\ startCycleCalls w' = startCycleCalls w.
Proof.
  intros Hok w'. subst w'.
  destruct (durable_reserve_success request w d Hok) as (_ & _ & ->). simpl.
  split; [reflexivity|]. split; [|auto].
  intros r _ Hne. unfold reserveRow.
  destruct (String.eqb_spec (machineId r) (machineId d)); [contradiction | reflexivity].
Qed.

(** X13. Two Reserve calls in a row on the durable table never hand out the
    same machine: the machine of the second has another id than the machine
    of the first, whatever the locations and jobs of the two requests. *)
Theorem reserve_twice_hands_out_different_machines (first second : RequestModel)
    (w : World (list MachineStateDocument) MachineStateDocument)
    (d1 d2 : MachineStateDocument) :
  fst (handleRequestMachine first w) = mkResponse OK (Machine d1) ->
  fst (handleRequestMachine second (snd (handleRequestMachine first w)))
    = mkResponse OK (Machine d2) ->
  machineId d2 <> machineId d1.
Proof.
  intros H1 H2.
  destruct (durable_reserve_success first w d1 H1) as (_ & _ & Hw).
  rewrite Hw in H2.
  destruct (durable_reserve_success second _ d2 H2) as (Hin & Hav & _).
  simpl in Hin. unfold DurableTable.listAt in Hin.
  apply filter_In in Hin as [Hin _]. apply in_map_iff in Hin as (d0 & Hd0 & _).
  intros Hid.
  destruct (reserveRow_of_id _ _ d0 d2 (eq_sym Hd0) Hid) as (_ & Hst & _).
  rewrite Hst in Hav. discriminate.
Qed.

Lemma durable_get_map (h : MachineStateDocument -> MachineStateDocument)
    (t : list MachineStateDocument) (id : string) :
  (forall d, machineId (h d) = machineId d) ->
  DurableTable.get (List.map h t) id = h <$> DurableTable.get t id.
Proof.
  intros Hid. unfold DurableTable.get.
  induction t as [|d t IH]; simpl; [reflexivity|].
  rewrite Hid. destruct (String.eqb (machineId d) id); [reflexivity | exact IH].
Qed.

Lemma durable_get_some (t : list MachineStateDocument) (d : MachineStateDocument) :
  In d t ->
  exists x, DurableTable.get t (machineId d) = Some x /\ machineId x = machineId d.
Proof.
  intros Hin. unfold DurableTable.get.
  destruct (find_is_some_of_exists
              (fun r => String.eqb (machineId r) (machineId d)) t d Hin
              (String.eqb_refl _)) as [x Hx].
  exists x. split; [exact Hx|].
  apply find_some in Hx as [_ Hx]. apply String.eqb_eq in Hx. exact Hx.
Qed.

Lemma reserveRow_machineId (id j : string) (d : MachineStateDocument) :
  machineId (reserveRow id j d) = machineId d.
Proof. unfold reserveRow. destruct (String.eqb _ _); reflexivity. Qed.

Lemma withStatus_if_machineId (id : string) (s : MachineStatus)
    (d : MachineStateDocument) :
  machineId (if String.eqb (machineId d) id then withStatus s d else d) = machineId d.
Proof. destruct (String.eqb _ _); reflexivity. Qed.

Section DurableSequences.

Variable validateToken : string -> bool.
Variable startCycle : list string -> string -> bool.

(** X14. Reserve and then StartCycle on the durable table: StartCycle for
    the id of the machine Reserve handed back passes the status check, calls
    the device, and answers a record of that id that carries the job of the
    Reserve request, with OK and status RUNNING when the device worked and
    HARDWARE_ERROR and status ERROR when it failed; that record replaces the
    entry Reserve had cached. *)
Theorem reserve_then_start (request : RequestModel) (start : MachineIdRequestModel)
    (w : World (list MachineStateDocument) MachineStateDocument)
    (d : MachineStateDocument) :
  fst (handleRequestMachine request w) = mkResponse OK (Machine d) ->
  Model.machineId start = machineId d ->
  let w1 := snd (handleRequestMachine request w) in
  let worked := startCycle (startCycleCalls w) (machineId d) in
  exists started,
    fst (handleStartMachine startCycle start w1)
      = mkResponse (if worked then OK else HARDWARE_ERROR) (Machine started)
    /\ machineId started = machineId d
    /\ status started = (if worked then RUNNING else ERROR)
    /\ jobId started = Some (Model.jobId request)
    /\ cache (snd (handleStartMachine startCycle start w1)) !! machineId d
       = Some started
    /\ startCycleCalls (snd (handleStartMachine startCycle start w1))
       = (startCycleCalls w ++ [machineId d])%list.
Proof.
  intros Hok Hstart w1 worked. subst w1 worked.
  destruct (durable_reserve_success request w d Hok) as (Hin & _ & ->).
  unfold DurableTable.listAt in Hin. apply filter_In in Hin as [Hin _].
  destruct (durable_get_some (table w) d Hin) as (x & Hx & Hidx).
  set (id := machineId d) in *. set (j := Model.jobId request).
  assert (Hrow : reserveRow id j x = mkDoc id (locationId x) AWAITING_DROPOFF (Some j)).
  { unfold reserveRow. rewrite Hidx, String.eqb_refl. reflexivity. }
  assert (Hget1 : DurableTable.get (List.map (reserveRow id j) (table w)) id
                  = Some (mkDoc id (locationId x) AWAITING_DROPOFF (Some j))).
  { rewrite (durable_get_map _ _ _ (reserveRow_machineId id j)), Hx. simpl.
    rewrite Hrow. reflexivity. }
  assert (Hget2 : forall s,
             DurableTable.get
               (DurableTable.updateStatus (List.map (reserveRow id j) (table w)) id s) id
             = Some (mkDoc id (locationId x) s (Some j))).
  { intros s. unfold DurableTable.updateStatus.
    rewrite (durable_get_map _ _ _ (fun r => withStatus_if_machineId id s r)), Hget1.
    simpl. rewrite String.eqb_refl. reflexivity. }
  unfold handleStartMachine. rewrite Hstart. fold id. simpl.
  rewrite Hget1. simpl.
  destruct (startCycle (startCycleCalls w) id); simpl; rewrite Hget2; simpl;
    eexists; (split; [reflexivity|]); simpl;
    rewrite lookup_insert_eq; auto.
Qed.

Lemma durable_reserve_never_frees (request : RequestModel)
    (w : World (list MachineStateDocument) MachineStateDocument) :
  Forall2 neverFreed (table w) (table (snd (handleRequestMachine request w))).
Proof.
  unfold handleRequestMachine.
  destruct (List.find _ _) as [chosen|]; simpl; [|apply neverFreed_refl].
  rewrite reserve_updates_are_one_update.
  apply neverFreed_map, neverFreed_reserveRow.
Qed.

Lemma durable_get_state_never_frees (request : MachineIdRequestModel)
    (w : World (list MachineStateDocument) MachineStateDocument) :
  Forall2 neverFreed (table w) (table (snd (handleGetMachine request w))).
Proof.
  unfold handleGetMachine. destruct (cacheGet _ _); [apply neverFreed_refl|].
  destruct (getMachine _ _); apply neverFreed_refl.
Qed.

Lemma durable_start_never_frees (request : MachineIdRequestModel)
    (w : World (list MachineStateDocument) MachineStateDocument) :
  Forall2 neverFreed (table w) (table (snd (handleStartMachine startCycle request w))).
Proof.
  unfold handleStartMachine.
  destruct (getMachine (table w) _); [|apply neverFreed_refl].
  destruct (bool_decide _); [apply neverFreed_refl|].
  destruct (startCycle _ _); simpl;
    destruct (DurableTable.get (DurableTable.updateStatus _ _ _) _); simpl;
    apply neverFreed_updateStatus; discriminate.
Qed.

(** X15. No request frees a machine on the durable table: after any call of
    [handle] the store has the same rows in the same order, each with the
    machine id and location it had, and a row that is available afterwards
    is unchanged, so it was available before. *)
Theorem handle_never_frees_a_machine (request : RequestModel)
    (w : World (list MachineStateDocument) MachineStateDocument) :
  Forall2 neverFreed (table w)
          (table (snd (handle validateToken startCycle request w))).
Proof.
  unfold handle. destruct (validateToken _); simpl; [|apply neverFreed_refl].
  destruct (_ && _).
  { pose proof (durable_reserve_never_frees request w) as Hr.
    destruct (handleRequestMachine request w). exact Hr. }
  destruct (if String.eqb (Model.method request) "GET" then _ else _) as [id|].
  { pose proof (durable_get_state_never_frees (withMachineId request id) w) as Hg.
    destruct (handleGetMachine _ w). exact Hg. }
  destruct (if String.eqb (Model.method request) "POST" then _ else _) as [id|];
    [|apply neverFreed_refl].
  pose proof (durable_start_never_frees (withMachineId request id) w) as Hs.
  destruct (handleStartMachine startCycle _ w). exact Hs.
Qed.

Lemma durable_reserve_counts (request : RequestModel)
    (w : World (list MachineStateDocument) MachineStateDocument)
    (d : MachineStateDocument) :
  fst (handleRequestMachine request w) = mkResponse OK (Machine d) ->
  availableCount (DurableTable.listAt (table (snd (handleRequestMachine request w)))
                                      (Model.locationId request))
    < availableCount (DurableTable.listAt (table w) (Model.locationId request))
  /\ availableCount (table (snd (handleRequestMachine request w)))
     < availableCount (table w).
Proof.
  intros Hok.
  destruct (durable_reserve_success request w d Hok) as (Hin & Hav & ->). simpl.
  assert (Hkeep : forall r, status (reserveRow (machineId d) (Model.jobId request) r)
                            = AVAILABLE -> status r = AVAILABLE).
  { intros r Hr. rewrite <- (reserveRow_available _ _ _ Hr). exact Hr. }
  assert (Hgone : status (reserveRow (machineId d) (Model.jobId request) d) <> AVAILABLE).
  { unfold reserveRow. rewrite String.eqb_refl. discriminate. }
  split.
  - rewrite (listAt_map _ _ _ (reserveRow_locationId _ _)).
    exact (availableCount_map_lt _ _ d Hkeep Hin Hav Hgone).
  - unfold DurableTable.listAt in Hin. apply filter_In in Hin as [Hin _].
    exact (availableCount_map_lt _ _ d Hkeep Hin Hav Hgone).
Qed.

(** X20. A Reserve call that succeeds on the durable table uses up an
    available machine: afterwards the listing of the location of the request
    holds fewer available machines than before, and so does the store as a
    whole. *)
Theorem reserve_uses_up_an_available_machine (request : RequestModel)
    (w : World (list MachineStateDocument) MachineStateDocument)
    (d : MachineStateDocument) :
  fst (handleRequestMachine request w) = mkResponse OK (Machine d) ->
  let w' := snd (handleRequestMachine request w) in
  availableCount (listMachinesAtLocation (table w') (Model.locationId request))
    < availableCount (listMachinesAtLocation (table w) (Model.locationId request))
  /\ availableCount (table w') < availableCount (table w).
Proof.
  intros Hok w'. exact (durable_reserve_counts request w d Hok).
Qed.

(** X21. With at most one available machine listed at a location of the
    durable table, the second of two Reserve calls in a row for that location
    answers NOT_FOUND: one available machine is never handed out twice. *)
Theorem reserve_with_one_available_succeeds_once (first second : RequestModel)
    (w : World (list MachineStateDocument) MachineStateDocument) :
  Model.locationId second = Model.locationId first ->
  availableCount (listMachinesAtLocation (table w) (Model.locationId first)) <= 1 ->
  fst (handleRequestMachine second (snd (handleRequestMachine first w)))
  = mkResponse NOT_FOUND Absent.
Proof.
  intros Hloc Hone.
  assert (Hzero : availableCount
                    (DurableTable.listAt (table (snd (handleRequestMachine first w)))
                                         (Model.locationId first)) = 0
                  -> fst (handleRequestMachine second (snd (handleRequestMachine first w)))
                     = mkResponse NOT_FOUND Absent).
  { intros Hz. unfold handleRequestMachine at 1. rewrite Hloc. simpl.
    rewrite (find_available_none_of_count _ Hz). reflexivity. }
  destruct (fst (handleRequestMachine first w)) as [code [| |d]] eqn:Hfirst.
  - apply Hzero. revert Hfirst. unfold handleRequestMachine. simpl.
    destruct (List.find _ _) as [chosen|] eqn:Hfind; simpl; [discriminate|].
    intros _. unfold availableCount.
    destruct (List.filter _ (DurableTable.listAt (table w) (Model.locationId first)))
      as [|a l] eqn:Hf; [reflexivity|].
    assert (Ha : In a (List.filter (fun d => bool_decide (status d = AVAILABLE))
                         (DurableTable.listAt (table w) (Model.locationId first))))
      by (rewrite Hf; left; reflexivity).
    apply filter_In in Ha as [Ha Hav].
    pose proof (find_none _ _ Hfind a Ha) as Hno. simpl in Hno.
    rewrite Hav in Hno. discriminate.
  - exfalso. revert Hfirst. unfold handleRequestMachine.
    destruct (List.find _ _); discriminate.
  - assert (Hok : fst (handleRequestMachine first w) = mkResponse OK (Machine d)).
    { revert Hfirst. unfold handleRequestMachine.
      destruct (List.find _ _); simpl; [|discriminate].
      intros [= <- <-]. reflexivity. }
    apply Hzero.
    pose proof (proj1 (durable_reserve_counts first w d Hok)) as Hlt.
    simpl in Hone. lia.
Qed.

End DurableSequences.

Section UnsupportedMethod.

Context {T H : Type} `{Tbl : MachineStateTable T H}.
Variable validateToken : string -> bool.
Variable startCycle : list string -> string -> bool.

(** X19. With a valid token, a request whose method is neither GET nor POST
    is answered INTERNAL_SERVER_ERROR with a null machine whatever its path,
    and the state is left as it was. *)
Theorem handle_unsupported_method (request : RequestModel) (w : World T H) :
  validateToken (Model.token request) = true ->
  Model.method request <> "GET" ->
  Model.method request <> "POST" ->
  handle validateToken startCycle request w
  = (Returned (mkResponse INTERNAL_SERVER_ERROR Null), w).
Proof.
  intros Htok Hget Hpost. unfold handle. rewrite Htok. simpl.
  destruct (String.eqb_spec (Model.method request) "POST"); [contradiction|].
  destruct (String.eqb_spec (Model.method request) "GET"); [contradiction|].
  reflexivity.
Qed.

End UnsupportedMethod.

(** ** The further properties at work on the scenarios *)

Lemma handle_rejects_invalid_token_witness :
  Scenario.noToken (Model.token Scenario.reserveAtL1) = false
  /\ handle Scenario.noToken Scenario.deviceWorks Scenario.reserveAtL1 Scenario.fresh
     = (Thrown UNAUTHORIZED "Invalid token", Scenario.fresh).
Proof.
  split; [reflexivity|].
  exact (handle_rejects_invalid_token (Tbl := DurableTable.durable)
           Scenario.noToken Scenario.deviceWorks Scenario.reserveAtL1
           Scenario.fresh eq_refl).
Defined.

Lemma handle_routes_reserve_witness :
  Scenario.anyToken (Model.token Scenario.reserveAtL1) = true
  /\ isRequestRoute (Model.method Scenario.reserveAtL1) (Model.path Scenario.reserveAtL1)
  /\ handle Scenario.anyToken Scenario.deviceWorks Scenario.reserveAtL1 Scenario.fresh
     = (Returned (mkResponse OK (Machine Scenario.m1)),
        mkWorld [Scenario.m1Reserved; Scenario.m2]
                (<["m1" := Scenario.m1]> ∅) []).
Proof.
  assert (Hroute : isRequestRoute (Model.method Scenario.reserveAtL1)
                                  (Model.path Scenario.reserveAtL1))
    by (split; reflexivity).
  split; [reflexivity|]. split; [exact Hroute|].
  exact (handle_routes_reserve (Tbl := DurableTable.durable)
           Scenario.anyToken Scenario.deviceWorks Scenario.reserveAtL1
           Scenario.fresh eq_refl Hroute).
Defined.

Lemma handle_routes_get_state_witness :
  let request := mkRequest "GET" "/machine/m2" "token" "" "" in
  Scenario.anyToken (Model.token request) = true
  /\ Model.method request = "GET"
  /\ validMachineId "m2"
  /\ Model.path request = "/machine/" ++ "m2"
  /\ handle Scenario.anyToken Scenario.deviceWorks request Scenario.fresh
     = (Returned (mkResponse OK (Machine Scenario.m2)),
        mkWorld [Scenario.m1; Scenario.m2] (<["m2" := Scenario.m2]> ∅) []).
Proof.
  intros request.
  assert (Hid : validMachineId "m2") by (split; [discriminate | reflexivity]).
  split; [reflexivity|]. split; [reflexivity|]. split; [exact Hid|].
  split; [reflexivity|].
  exact (handle_routes_get_state (Tbl := DurableTable.durable)
           Scenario.anyToken Scenario.deviceWorks request Scenario.fresh "m2"
           eq_refl eq_refl Hid eq_refl).
Defined.

Lemma handle_routes_start_witness :
  let request := mkRequest "POST" "/machine/m1/start" "token" "" "" in
  Scenario.anyToken (Model.token request) = true
  /\ Model.method request = "POST"
  /\ validMachineId "m1"
  /\ Model.path request = "/machine/" ++ "m1" ++ "/start"
  /\ handle Scenario.anyToken Scenario.deviceWorks request Scenario.reserved
     = (Returned (mkResponse OK (Machine Scenario.m1Running)),
        mkWorld [Scenario.m1Running; Scenario.m2]
                (<["m1" := Scenario.m1Running]> ∅) ["m1"]).
Proof.
  intros request.
  assert (Hid : validMachineId "m1") by (split; [discriminate | reflexivity]).
  split; [reflexivity|]. split; [reflexivity|]. split; [exact Hid|].
  split; [reflexivity|].
  exact (handle_routes_start (Tbl := DurableTable.durable)
           Scenario.anyToken Scenario.deviceWorks request Scenario.reserved "m1"
           eq_refl eq_refl Hid eq_refl).
Defined.

Lemma handle_unsupported_method_witness :
  let request := mkRequest "DELETE" "/machine/m1" "token" "" "" in
  Scenario.anyToken (Model.token request) = true
  /\ Model.method request <> "GET"
  /\ Model.method request <> "POST"
  /\ handle Scenario.anyToken Scenario.deviceWorks request Scenario.fresh
     = (Returned (mkResponse INTERNAL_SERVER_ERROR Null), Scenario.fresh).
Proof.
  intros request.
  assert (Hget : Model.method request <> "GET") by discriminate.
  assert (Hpost : Model.method request <> "POST") by discriminate.
  split; [reflexivity|]. split; [exact Hget|]. split; [exact Hpost|].
  exact (handle_unsupported_method (Tbl := DurableTable.durable)
           Scenario.anyToken Scenario.deviceWorks request Scenario.fresh
           eq_refl Hget Hpost).
Defined.

Lemma start_unknown_machine_witness :
  cache Scenario.orphanCached !! "m9" <> None
  /\ getMachine (table Scenario.orphanCached) "m9" = None
  /\ handleStartMachine Scenario.deviceWorks (Scenario.startRequest "m9")
                        Scenario.orphanCached
     = (mkResponse NOT_FOUND Absent, Scenario.orphanCached).
Proof.
  split; [vm_compute; discriminate|]. split; [reflexivity|].
  exact (start_unknown_machine_is_not_found (Tbl := DurableTable.durable)
           Scenario.deviceWorks (Scenario.startRequest "m9")
           Scenario.orphanCached eq_refl).
Defined.

Lemma start_twice_witness :
  getMachine (table Scenario.reserved) "m1" = Some Scenario.m1Reserved
  /\ status Scenario.m1Reserved = AWAITING_DROPOFF
  /\ getMachine (updateMachineStatus (table Scenario.reserved) "m1" RUNNING) "m1"
     = Some Scenario.m1Running
  /\ (let w' := snd (handleStartMachine Scenario.deviceWorks
                       (Scenario.startRequest "m1") Scenario.reserved) in
      handleStartMachine Scenario.deviceWorks (Scenario.startRequest "m1") w'
      = (mkResponse BAD_REQUEST (Machine Scenario.m1Running), w')
      /\ startCycleCalls w' = ["m1"]).
Proof.
  split; [reflexivity|]. split; [reflexivity|]. split; [reflexivity|].
  exact (start_twice_is_bad_request (Laws := durable_laws) Scenario.deviceWorks
           (Scenario.startRequest "m1") Scenario.reserved
           Scenario.m1Reserved Scenario.m1Running eq_refl eq_refl eq_refl).
Defined.

Lemma get_state_after_reserve_witness :
  fst (handleRequestMachine Scenario.reserveAtL1 Scenario.fresh)
    = mkResponse OK (Machine Scenario.m1)
  /\ handleGetMachine (Scenario.getRequest "m1")
                      (snd (handleRequestMachine Scenario.reserveAtL1 Scenario.fresh))
     = (mkResponse OK (Machine Scenario.m1),
        snd (handleRequestMachine Scenario.reserveAtL1 Scenario.fresh)).
Proof.
  split; [reflexivity|].
  exact (get_state_after_reserve_answers_reserved_object (Tbl := DurableTable.durable)
           Scenario.reserveAtL1 (Scenario.getRequest "m1") Scenario.fresh
           Scenario.m1 eq_refl eq_refl).
Defined.

Lemma reserve_is_one_compound_update_witness :
  fst (handleRequestMachine Scenario.reserveAtL1 Scenario.fresh)
    = mkResponse OK (Machine Scenario.m1)
  /\ table (snd (handleRequestMachine Scenario.reserveAtL1 Scenario.fresh))
     = List.map (reserveRow "m1" "j1") [Scenario.m1; Scenario.m2].
Proof.
  split; [reflexivity|].
  exact (proj1 (reserve_is_one_compound_update Scenario.reserveAtL1 Scenario.fresh
                  Scenario.m1 eq_refl)).
Defined.

Lemma reserve_twice_witness :
  fst (handleRequestMachine Scenario.reserveAtL1 Scenario.twoAvailable)
    = mkResponse OK (Machine Scenario.m1)
  /\ fst (handleRequestMachine Scenario.reserveAtL1
            (snd (handleRequestMachine Scenario.reserveAtL1 Scenario.twoAvailable)))
     = mkResponse OK (Machine Scenario.m3)
  /\ machineId Scenario.m3 <> machineId Scenario.m1.
Proof.
  split; [reflexivity|]. split; [reflexivity|].
  exact (reserve_twice_hands_out_different_machines Scenario.reserveAtL1
           Scenario.reserveAtL1 Scenario.twoAvailable Scenario.m1 Scenario.m3
           eq_refl eq_refl).
Defined.

Lemma reserve_then_start_witness :
  fst (handleRequestMachine Scenario.reserveAtL1 Scenario.fresh)
    = mkResponse OK (Machine Scenario.m1)
  /\ Model.machineId (Scenario.startRequest "m1") = machineId Scenario.m1
  /\ exists started,
       fst (handleStartMachine Scenario.deviceBroken (Scenario.startRequest "m1")
              (snd (handleRequestMachine Scenario.reserveAtL1 Scenario.fresh)))
         = mkResponse HARDWARE_ERROR (Machine started)
       /\ status started = ERROR
       /\ jobId started = Some "j1".
Proof.
  split; [reflexivity|]. split; [reflexivity|].
  destruct (reserve_then_start Scenario.deviceBroken Scenario.reserveAtL1
              (Scenario.startRequest "m1") Scenario.fresh Scenario.m1
              eq_refl eq_refl) as (started & Hres & _ & Hst & Hjob & _).
  exists started. split; [exact Hres|]. split; [exact Hst | exact Hjob].
Defined.

Lemma reserve_uses_up_an_available_machine_witness :
  fst (handleRequestMachine Scenario.reserveAtL1 Scenario.twoAvailable)
    = mkResponse OK (Machine Scenario.m1)
  /\ availableCount
       (table (snd (handleRequestMachine Scenario.reserveAtL1 Scenario.twoAvailable)))
     < availableCount (table Scenario.twoAvailable).
Proof.
  split; [reflexivity|].
  exact (proj2 (reserve_uses_up_an_available_machine Scenario.reserveAtL1
                  Scenario.twoAvailable Scenario.m1 eq_refl)).
Defined.

Lemma reserve_with_one_available_witness :
  Model.locationId Scenario.reserveAtL1 = Model.locationId Scenario.reserveAtL1
  /\ availableCount (listMachinesAtLocation (table Scenario.fresh) "L1") <= 1
  /\ fst (handleRequestMachine Scenario.reserveAtL1 Scenario.fresh)
     = mkResponse OK (Machine Scenario.m1)
  /\ fst (handleRequestMachine Scenario.reserveAtL1
            (snd (handleRequestMachine Scenario.reserveAtL1 Scenario.fresh)))
     = mkResponse NOT_FOUND Absent.
Proof.
  assert (Hone : availableCount (listMachinesAtLocation (table Scenario.fresh) "L1") <= 1)
    by (vm_compute; apply le_n).
  split; [reflexivity|]. split; [exact Hone|]. split; [reflexivity|].
  exact (reserve_with_one_available_succeeds_once Scenario.reserveAtL1
           Scenario.reserveAtL1 Scenario.fresh eq_refl Hone).
Defined.

(** * Reserve on a table that hands out its stored rows *)

Lemma live_hands_out_stored_rows :
  @HandsOutStoredRows (list MachineStateDocument) nat LiveTable.live.
Proof.
  constructor.
  - intros t loc id s i Hin. simpl in *.
    unfold LiveTable.listAt in *. apply filter_In in Hin as [Hseq Hloc].
    apply in_seq in Hseq as [_ Hlt]. simpl in Hlt.
    assert (Hrow : LiveTable.row (DurableTable.updateStatus t id s) i
                   = (if String.eqb (machineId (LiveTable.row t i)) id
                      then withStatus s (LiveTable.row t i) else LiveTable.row t i)).
    { unfold DurableTable.updateStatus. apply live_row_map. exact Hlt. }
    split; [|exact Hrow].
    apply filter_In. split.
    + apply in_seq. unfold DurableTable.updateStatus.
      rewrite List.length_map. simpl. split; [apply Nat.le_0_l | exact Hlt].
    + rewrite Hrow. destruct (String.eqb _ id); exact Hloc.
  - intros t loc id j i Hin. simpl in *.
    unfold LiveTable.listAt in Hin. apply filter_In in Hin as [Hseq _].
    apply in_seq in Hseq as [_ Hlt]. simpl in Hlt.
    unfold DurableTable.updateJobId. apply live_row_map. exact Hlt.
Qed.

Section StoredRows.

Context {T H : Type} `{Rows : HandsOutStoredRows T H}.

(** What a Reserve call that finds a machine does, seen through the object
    it hands back. *)
Lemma reserve_shows_in_listed_object
    (request : RequestModel) (w : World T H) (h : H) :
  fst (handleRequestMachine request w) = mkResponse OK (Machine h) ->
  let w' := snd (handleRequestMachine request w) in
  cache w' !! machineId (docOf (table w') h) = Some h
  /\ status (docOf (table w') h) = AWAITING_DROPOFF
  /\ jobId (docOf (table w') h) = Some (Model.jobId request).
Proof.
  unfold handleRequestMachine.
  destruct (List.find _ _) as [chosen|] eqn:Hfind; simpl; [|discriminate].
  intros [= <-]. apply find_some in Hfind as [Hin _].
  set (t := table w) in *. set (loc := Model.locationId request) in *.
  set (id := machineId (docOf t chosen)).
  destruct (listed_updateMachineStatus t loc id AWAITING_DROPOFF chosen Hin)
    as [Hin1 Hdoc1].
  unfold id in Hdoc1 at 2. rewrite String.eqb_refl in Hdoc1.
  fold id in Hdoc1.
  pose proof (listed_updateMachineJobId
                (updateMachineStatus t id AWAITING_DROPOFF) loc
                (machineId (docOf (updateMachineStatus t id AWAITING_DROPOFF) chosen))
                (Model.jobId request) chosen Hin1) as Hdoc2.
  rewrite String.eqb_refl in Hdoc2.
  split; [apply lookup_insert_eq|].
  rewrite Hdoc2, Hdoc1. simpl. auto.
Qed.


End StoredRows.

Section AfterTransition.

Context {T H : Type} `{Rows : HandsOutStoredRows T H}.
Context `{Laws : !MachineStateTableLaws T H}.
Variable startCycle : list string -> string -> bool.


End AfterTransition.


